(** * Ration Smart API client ([src/feed-client.ts]): a shallow embedding

    The class [FeedFormulationClient] is embedded as functions in a small
    state-and-exception monad.  The state holds the client object ([this]),
    the log of outbound [fetch] calls and the log of [console.warn] lines.
    The backend, the clock and the platform's form-encoding are an
    environment the functions are parameterised by. *)

From Stdlib Require Import String Ascii List Bool ZArith QArith Lia.
From Stdlib Require Import DecimalString.
From Stdlib Require DecimalPos DecimalZ.
Import ListNotations.

Local Open Scope list_scope.
Local Open Scope string_scope.

(** ** JavaScript values

    What [response.json()] may hand back, plus [undefined].  The TypeScript
    casts ([as FeedDetails], [as { success: boolean; user: UserInfo }]) are
    erased at run time, so the client reads these values untyped.  JSON
    numbers are kept as rationals. *)

#[warnings="-register-all"]
Inductive JSValue : Type :=
| JUndefined
| JNull
| JBool (b : bool)
| JNum (q : Q)
| JStr (s : string)
| JArr (items : list JSValue)
| JObj (fields : list (string * JSValue)).

(** A thrown value: an [Error] instance with its message, or anything else. *)
Inductive Thrown : Type :=
| JsError (message : string)
| NonError (v : JSValue).

Inductive Outcome (A : Type) : Type :=
| Returned (a : A)
| Threw (e : Thrown).
Arguments Returned {A} a.
Arguments Threw {A} e.

(** [if (v)]: JavaScript truthiness. *)
Definition truthy (v : JSValue) : bool :=
  match v with
  | JUndefined | JNull => false
  | JBool b => b
  | JNum q => negb (Qeq_bool q 0)
  | JStr s => negb (String.eqb s "")
  | JArr _ | JObj _ => true
  end.

(** An optional string parameter ([x?: string]) or a [string | null] field. *)
Definition arg (o : option string) : JSValue :=
  match o with
  | Some s => JStr s
  | None => JUndefined
  end.

Definition given (o : option string) : bool := truthy (arg o).

(** [a || b] *)
Definition js_or (a b : JSValue) : JSValue := if truthy a then a else b.

Fixpoint lookup (k : string) (fs : list (string * JSValue)) : option JSValue :=
  match fs with
  | [] => None
  | (k', v) :: fs' => if String.eqb k k' then Some v else lookup k fs'
  end.

(** [v.k] for the property names the client reads ([success], [user], [id],
    [country_id], [country], [currency], [fd_country_id], [feeds]); none of
    them is a built-in property of strings, numbers, booleans or arrays.
    Reading a property of [null] or [undefined] throws a TypeError. *)
Definition get (v : JSValue) (k : string) : Outcome JSValue :=
  match v with
  | JUndefined =>
      Threw (JsError ("Cannot read properties of undefined (reading '" ++ k ++ "')"))
  | JNull =>
      Threw (JsError ("Cannot read properties of null (reading '" ++ k ++ "')"))
  | JObj fs =>
      match lookup k fs with
      | Some x => Returned x
      | None => Returned JUndefined
      end
  | _ => Returned JUndefined
  end.

(** [v?.k] *)
Definition get_opt (v : JSValue) (k : string) : Outcome JSValue :=
  match v with
  | JUndefined | JNull => Returned JUndefined
  | _ => get v k
  end.

(** [typeof v === 'object'] *)
Definition typeof_object (v : JSValue) : bool :=
  match v with
  | JNull | JArr _ | JObj _ => true
  | _ => false
  end.

(** ['k' in v] for an object or an array and a name that is neither an index
    nor a built-in of arrays. *)
Definition has_in (k : string) (v : JSValue) : bool :=
  match v with
  | JObj fs =>
      match lookup k fs with
      | Some _ => true
      | None => false
      end
  | _ => false
  end.

(** [`${n}`] for an integer-valued number. *)
Definition string_of_Z (n : Z) : string := NilZero.string_of_int (Z.to_int n).

(** ** The records of the request interfaces *)

Record CattleInfo : Type := {
  body_weight : Q;
  breed : string;
  lactating : bool;
  milk_production : Q;
  days_in_milk : Q;
  parity : Q;
  days_of_pregnancy : Q;
  tp_milk : Q;
  fat_milk : Q;
  temperature : Q;
  topography : string;
  distance : Q;
  calving_interval : Q;
  bw_gain : option Q;
  bc_score : option Q
}.

Module FeedWithPrice.
Record t : Type := { feed_id : string; price_per_kg : Q }.
End FeedWithPrice.

Module FeedEvaluationItem.
Record t : Type := { feed_id : string; quantity_as_fed : Q; price_per_kg : Q }.
End FeedEvaluationItem.

Module DietRecommendationRequest.
Record t : Type := {
  simulation_id : string;
  user_id : JSValue;
  cattle_info : CattleInfo;
  feed_selection : list FeedWithPrice.t;
  country_id : JSValue
}.
End DietRecommendationRequest.

Module DietEvaluationRequest.
Record t : Type := {
  simulation_id : string;
  user_id : JSValue;
  country_id : JSValue;
  currency : JSValue;
  cattle_info : CattleInfo;
  feed_evaluation : list FeedEvaluationItem.t
}.
End DietEvaluationRequest.

(** The filter object of [searchFeeds]; [limit] and [offset] are integers. *)
Module SearchParams.
Record t : Type := {
  country_id : option string;
  feed_type : option string;
  feed_category : option string;
  limit : option Z;
  offset : option Z
}.
End SearchParams.

(** ** Transport *)

Inductive Method : Type := GET | POST.

(** The object handed to [JSON.stringify] for the request body. *)
Inductive Body : Type :=
| LoginBody (email_id pin : option string)
| RecommendationBody (r : DietRecommendationRequest.t)
| EvaluationBody (r : DietEvaluationRequest.t).

Record Request : Type := {
  method : Method;
  url : string;
  headers : list (string * string);
  body : option Body
}.

(** A [node-fetch] response: the fields and the two body readers the client
    uses.  [json] throws when the body is not JSON.  The client tests [ok]
    only; no relation between [ok] and [status] is assumed. *)
Record Response : Type := {
  ok : bool;
  status : Z;
  statusText : string;
  json : Outcome JSValue;
  text : Outcome string
}.

Inductive FetchOutcome : Type :=
| Resolved (r : Response)
| Rejected (e : Thrown).

(** The world outside the client.  [backend] answers a request given the
    requests made before it; [clock] is what [Date.now()] reads at that point
    of the exchange; [form_urlencoded] is [URLSearchParams.prototype.toString]. *)
Record Env : Type := {
  backend : list Request -> Request -> FetchOutcome;
  clock : list Request -> Z;
  form_urlencoded : list (string * string) -> string
}.

(** ** The client object and the program state *)

Record Client : Type := {
  baseUrl : string;
  apiKey : option string;
  userEmail : option string;
  userPin : option string;
  cachedUserId : JSValue;
  cachedCountryId : JSValue;
  cachedCurrency : JSValue;
  organizationId : option string
}.

Record World : Type := {
  this : Client;
  calls : list Request;
  warnings : list (string * Thrown)
}.

Definition Eff (A : Type) : Type := World -> Outcome A * World.

Definition ret {A} (a : A) : Eff A := fun w => (Returned a, w).

Definition throw {A} (e : Thrown) : Eff A := fun w => (Threw e, w).

Definition lift {A} (o : Outcome A) : Eff A := fun w => (o, w).

Definition bind {A B} (m : Eff A) (k : A -> Eff B) : Eff B :=
  fun w =>
    match m w with
    | (Returned a, w') => k a w'
    | (Threw e, w') => (Threw e, w')
    end.

Definition try_catch {A} (m : Eff A) (handler : Thrown -> Eff A) : Eff A :=
  fun w =>
    match m w with
    | (Returned a, w') => (Returned a, w')
    | (Threw e, w') => handler e w'
    end.

Declare Scope eff_scope.
Delimit Scope eff_scope with eff.
Notation "x <- m ;; k" := (bind m (fun x => k))
  (at level 61, m at next level, right associativity) : eff_scope.
Notation "m ;; k" := (bind m (fun _ => k))
  (at level 61, right associativity) : eff_scope.
Local Open Scope eff_scope.

Definition get_this : Eff Client := fun w => (Returned (this w), w).

Definition set_this (c : Client) : Eff unit :=
  fun w => (Returned tt, {| this := c; calls := calls w; warnings := warnings w |}).

Definition set_cachedUserId (v : JSValue) (c : Client) : Client :=
  {| baseUrl := baseUrl c; apiKey := apiKey c; userEmail := userEmail c;
     userPin := userPin c; cachedUserId := v;
     cachedCountryId := cachedCountryId c; cachedCurrency := cachedCurrency c;
     organizationId := organizationId c |}.

Definition set_cachedCountryId (v : JSValue) (c : Client) : Client :=
  {| baseUrl := baseUrl c; apiKey := apiKey c; userEmail := userEmail c;
     userPin := userPin c; cachedUserId := cachedUserId c;
     cachedCountryId := v; cachedCurrency := cachedCurrency c;
     organizationId := organizationId c |}.

Definition set_cachedCurrency (v : JSValue) (c : Client) : Client :=
  {| baseUrl := baseUrl c; apiKey := apiKey c; userEmail := userEmail c;
     userPin := userPin c; cachedUserId := cachedUserId c;
     cachedCountryId := cachedCountryId c; cachedCurrency := v;
     organizationId := organizationId c |}.

(** [this.f = v] *)
Definition assign (upd : JSValue -> Client -> Client) (v : JSValue) : Eff unit :=
  c <- get_this ;; set_this (upd v c).

(** [console.warn(msg, error)] *)
Definition console_warn (msg : string) (e : Thrown) : Eff unit :=
  fun w => (Returned tt,
            {| this := this w; calls := calls w;
               warnings := (warnings w ++ [(msg, e)])%list |}).

(** ** The class [FeedFormulationClient] *)

(** [new FeedFormulationClient(baseUrl, apiKey?, userEmail?, userPin?)] *)
Definition constructor (url0 : string) (key email pin : option string)
  : Outcome Client :=
  let fresh (k e p : option string) :=
    {| baseUrl := url0; apiKey := k; userEmail := e; userPin := p;
       cachedUserId := JNull; cachedCountryId := JNull;
       cachedCurrency := JNull; organizationId := None |} in
  if given key then Returned (fresh key None None)
  else if given email && given pin then Returned (fresh None email pin)
  else Threw (JsError "Either API key or email+PIN must be provided").

Definition getAuthHeaders (c : Client) : list (string * string) :=
  let headers := [("Content-Type", "application/json")] in
  let bearer := "Bearer " ++ match apiKey c with
                             | Some k => k
                             | None => ""
                             end in
  if given (apiKey c)
  then (headers ++ [("Authorization", bearer)])%list
  else headers.

Section Methods.

Variable E : Env.

(** [await fetch(url, init)]: the call is logged whether it resolves or not. *)
Definition fetch (r : Request) : Eff Response :=
  fun w =>
    let w' := {| this := this w; calls := (calls w ++ [r])%list;
                 warnings := warnings w |} in
    match backend E (calls w) r with
    | Resolved resp => (Returned resp, w')
    | Rejected e => (Threw e, w')
    end.

(** [Date.now()] *)
Definition Date_now : Eff Z := fun w => (Returned (clock E (calls w)), w).

Definition loginRequest (c : Client) : Request :=
  {| method := POST;
     url := baseUrl c ++ "/auth/login";
     headers := [("Content-Type", "application/json")];
     body := Some (LoginBody (userEmail c) (userPin c)) |}.

Definition authenticate : Eff JSValue :=
  c <- get_this ;;
  if truthy (cachedUserId c) then ret (cachedUserId c)
  else if negb (given (userEmail c)) || negb (given (userPin c))
  then throw (JsError "Email and PIN required for authentication")
  else
    try_catch
      (response <- fetch (loginRequest c) ;;
       if negb (ok response)
       then throw (JsError ("Authentication failed: "
                            ++ string_of_Z (status response) ++ " "
                            ++ statusText response))
       else
         data <- lift (json response) ;;
         success <- lift (get data "success") ;;
         if negb (truthy success)
         then throw (JsError "Invalid authentication response")
         else
           user <- lift (get data "user") ;;
           if negb (truthy user)
           then throw (JsError "Invalid authentication response")
           else
             id <- lift (get user "id") ;;
             assign set_cachedUserId id ;;
             country_id <- lift (get user "country_id") ;;
             assign set_cachedCountryId country_id ;;
             country <- lift (get user "country") ;;
             currency <- lift (get_opt country "currency") ;;
             assign set_cachedCurrency (js_or currency (JStr "USD")) ;;
             c' <- get_this ;;
             ret (cachedUserId c'))
      (fun error =>
         throw (JsError ("Failed to authenticate: "
                         ++ match error with
                            | JsError m => m
                            | NonError _ => "Unknown error"
                            end))).

Definition getUserId : Eff JSValue :=
  c <- get_this ;;
  if given (apiKey c)
  then throw (JsError "User ID not available with API key authentication. Use organization context instead.")
  else authenticate.

Definition getCountryId : Eff JSValue :=
  c <- get_this ;;
  if given (apiKey c)
  then throw (JsError "Country ID not available with API key authentication. Specify country_id in requests.")
  else
    authenticate ;;
    c' <- get_this ;;
    if negb (truthy (cachedCountryId c'))
    then throw (JsError "Country ID not available")
    else ret (cachedCountryId c').

Definition getCurrency : Eff JSValue :=
  c <- get_this ;;
  if given (apiKey c) then ret (JStr "USD")
  else
    authenticate ;;
    c' <- get_this ;;
    ret (js_or (cachedCurrency c') (JStr "USD")).

Definition getCountries : Eff JSValue :=
  c <- get_this ;;
  response <- fetch {| method := GET; url := baseUrl c ++ "/auth/countries";
                       headers := getAuthHeaders c; body := None |} ;;
  if negb (ok response)
  then throw (JsError ("Failed to get countries: " ++ string_of_Z (status response)))
  else lift (json response).

Definition feedRequest (c : Client) (feedId : string) : Request :=
  {| method := GET; url := baseUrl c ++ "/feeds/" ++ feedId;
     headers := getAuthHeaders c; body := None |}.

Definition getFeedById (feedId : string) : Eff JSValue :=
  c <- get_this ;;
  response <- fetch (feedRequest c feedId) ;;
  if negb (ok response)
  then throw (JsError ("Failed to get feed: " ++ string_of_Z (status response)))
  else lift (json response).

(** [if (params.x) queryParams.append(name, params.x)] for a string filter. *)
Definition append_string (name : string) (x : option string)
  (query : list (string * string)) : list (string * string) :=
  match x with
  | Some v => if given x then (query ++ [(name, v)])%list else query
  | None => query
  end.

(** The same for a numeric filter: [0] is falsy. *)
Definition append_number (name : string) (x : option Z)
  (query : list (string * string)) : list (string * string) :=
  match x with
  | Some n => if Z.eqb n 0 then query else (query ++ [(name, string_of_Z n)])%list
  | None => query
  end.

Definition searchQuery (params : SearchParams.t) : list (string * string) :=
  append_number "offset" (SearchParams.offset params)
    (append_number "limit" (SearchParams.limit params)
      (append_string "feed_category" (SearchParams.feed_category params)
        (append_string "feed_type" (SearchParams.feed_type params)
          (append_string "country_id" (SearchParams.country_id params) [])))).

Definition searchRequest (c : Client) (params : SearchParams.t) : Request :=
  let qs := form_urlencoded E (searchQuery params) in
  {| method := GET;
     url := baseUrl c ++ "/feeds/" ++ (if given (Some qs) then "?" ++ qs else "");
     headers := getAuthHeaders c; body := None |}.

Definition searchFeeds (params : SearchParams.t) : Eff JSValue :=
  c <- get_this ;;
  response <- fetch (searchRequest c params) ;;
  if negb (ok response)
  then throw (JsError ("Failed to search feeds: " ++ string_of_Z (status response)))
  else
    data <- lift (json response) ;;
    if truthy data && typeof_object data && has_in "feeds" data
    then lift (get data "feeds")
    else ret data.

Definition detectCountryFromFeeds (feedIds : list string) : Eff JSValue :=
  try_catch
    (match feedIds with
     | [] => ret JNull
     | first :: _ =>
         firstFeed <- getFeedById first ;;
         fd_country_id <- lift (get firstFeed "fd_country_id") ;;
         ret (js_or fd_country_id JNull)
     end)
    (fun error =>
       console_warn "[FeedClient] Could not auto-detect country from feeds:" error ;;
       ret JNull).

Definition getServiceAccountUserId : Eff JSValue :=
  ret (JStr "00000000-0000-0000-0000-000000000000").

Definition getDietRecommendation (cattleInfo : CattleInfo)
  (feedSelection : list FeedWithPrice.t) (countryId userId : option string)
  : Eff JSValue :=
  c <- get_this ;;
  ids <- (if given (apiKey c)
          then
            countryIdToUse <-
              (if negb (given countryId)
               then
                 let feedIds := map FeedWithPrice.feed_id feedSelection in
                 detectedCountryId <- detectCountryFromFeeds feedIds ;;
                 if negb (truthy detectedCountryId)
                 then throw (JsError "country_id is required. Either provide it explicitly or ensure feeds have country_id set.")
                 else ret detectedCountryId
               else ret (arg countryId)) ;;
            userIdToUse <-
              (if given userId then ret (arg userId) else getServiceAccountUserId) ;;
            ret (userIdToUse, countryIdToUse)
          else
            userIdToUse <- getUserId ;;
            countryIdToUse <-
              (if given countryId then ret (arg countryId) else getCountryId) ;;
            ret (userIdToUse, countryIdToUse)) ;;
  now <- Date_now ;;
  let simulationId := "sim-" ++ string_of_Z now in
  let request :=
    {| DietRecommendationRequest.simulation_id := simulationId;
       DietRecommendationRequest.user_id := fst ids;
       DietRecommendationRequest.cattle_info := cattleInfo;
       DietRecommendationRequest.feed_selection := feedSelection;
       DietRecommendationRequest.country_id := snd ids |} in
  c' <- get_this ;;
  response <- fetch {| method := POST;
                       url := baseUrl c' ++ "/diet-recommendation-working/";
                       headers := getAuthHeaders c';
                       body := Some (RecommendationBody request) |} ;;
  if negb (ok response)
  then
    errorText <- lift (text response) ;;
    throw (JsError ("Diet recommendation failed: "
                    ++ string_of_Z (status response) ++ " - " ++ errorText))
  else lift (json response).

Definition evaluateDiet (cattleInfo : CattleInfo)
  (feedEvaluation : list FeedEvaluationItem.t)
  (countryId currency userId : option string) : Eff JSValue :=
  c <- get_this ;;
  ids <- (if given (apiKey c)
          then
            countryIdToUse <-
              (if negb (given countryId)
               then
                 let feedIds := map FeedEvaluationItem.feed_id feedEvaluation in
                 detectedCountryId <- detectCountryFromFeeds feedIds ;;
                 if negb (truthy detectedCountryId)
                 then throw (JsError "country_id is required. Either provide it explicitly or ensure feeds have country_id set.")
                 else ret detectedCountryId
               else ret (arg countryId)) ;;
            userIdToUse <-
              (if given userId then ret (arg userId) else getServiceAccountUserId) ;;
            let currencyToUse := js_or (arg currency) (JStr "USD") in
            ret (userIdToUse, countryIdToUse, currencyToUse)
          else
            userIdToUse <- getUserId ;;
            countryIdToUse <-
              (if given countryId then ret (arg countryId) else getCountryId) ;;
            currencyToUse <-
              (if given currency then ret (arg currency) else getCurrency) ;;
            ret (userIdToUse, countryIdToUse, currencyToUse)) ;;
  now <- Date_now ;;
  let simulationId := "eval-" ++ string_of_Z now in
  let request :=
    {| DietEvaluationRequest.simulation_id := simulationId;
       DietEvaluationRequest.user_id := fst (fst ids);
       DietEvaluationRequest.country_id := snd (fst ids);
       DietEvaluationRequest.currency := snd ids;
       DietEvaluationRequest.cattle_info := cattleInfo;
       DietEvaluationRequest.feed_evaluation := feedEvaluation |} in
  c' <- get_this ;;
  response <- fetch {| method := POST;
                       url := baseUrl c' ++ "/diet-evaluation-working/";
                       headers := getAuthHeaders c';
                       body := Some (EvaluationBody request) |} ;;
  if negb (ok response)
  then
    errorText <- lift (text response) ;;
    throw (JsError ("Diet evaluation failed: "
                    ++ string_of_Z (status response) ++ " - " ++ errorText))
  else lift (json response).

End Methods.

(** ** Vocabulary of the specification *)

(** The authentication mode of a client, as every method decides it: by
    [if (this.apiKey)], and otherwise by the e-mail and PIN. *)
Inductive Mode : Type := ApiKey | EmailPin.

Definition mode (c : Client) : option Mode :=
  if given (apiKey c) then Some ApiKey
  else if given (userEmail c) && given (userPin c) then Some EmailPin
  else None.

(** The error classes of the specification are the messages of the source. *)
Definition MissingCredentials : Thrown :=
  JsError "Either API key or email+PIN must be provided".

Definition UnsupportedOperation_userId : Thrown :=
  JsError "User ID not available with API key authentication. Use organization context instead.".

Definition UnsupportedOperation_countryId : Thrown :=
  JsError "Country ID not available with API key authentication. Specify country_id in requests.".

Definition MissingCountryContext : Thrown :=
  JsError "country_id is required. Either provide it explicitly or ensure feeds have country_id set.".

Definition serviceAccount : JSValue := JStr "00000000-0000-0000-0000-000000000000".

(** [part] occurs in [whole]. *)
Definition contains (part whole : string) : Prop :=
  exists pre post, whole = pre ++ part ++ post.

(** [w] after one more outbound call. *)
Definition logged (r : Request) (w : World) : World :=
  {| this := this w; calls := (calls w ++ [r])%list; warnings := warnings w |}.

(** [v.k] when [v] is known not to be [null] or [undefined]. *)
Definition field (v : JSValue) (k : string) : JSValue :=
  match get v k with
  | Returned x => x
  | Threw _ => JUndefined
  end.

(** [w] after one more [console.warn] from the detector. *)
Definition warned (e : Thrown) (w : World) : World :=
  {| this := this w; calls := calls w;
     warnings := (warnings w
                  ++ [("[FeedClient] Could not auto-detect country from feeds:", e)])%list |}.

(** [v?.k] as a value. *)
Definition field_opt (v : JSValue) (k : string) : JSValue :=
  match get_opt v k with
  | Returned x => x
  | Threw _ => JUndefined
  end.

(** [error instanceof Error ? error.message : 'Unknown error'] *)
Definition errorMessage (e : Thrown) : string :=
  match e with
  | JsError m => m
  | NonError _ => "Unknown error"
  end.

(** The client after a login that returned [user]. *)
Definition remember (user : JSValue) (c : Client) : Client :=
  set_cachedCurrency (js_or (field_opt (field user "country") "currency") (JStr "USD"))
    (set_cachedCountryId (field user "country_id")
       (set_cachedUserId (field user "id") c)).

Definition evaluationRequest (c : Client) (now : Z)
  (userId countryId currency : JSValue) (cattleInfo : CattleInfo)
  (feedEvaluation : list FeedEvaluationItem.t) : Request :=
  {| method := POST;
     url := baseUrl c ++ "/diet-evaluation-working/";
     headers := getAuthHeaders c;
     body := Some (EvaluationBody
       {| DietEvaluationRequest.simulation_id := "eval-" ++ string_of_Z now;
          DietEvaluationRequest.user_id := userId;
          DietEvaluationRequest.country_id := countryId;
          DietEvaluationRequest.currency := currency;
          DietEvaluationRequest.cattle_info := cattleInfo;
          DietEvaluationRequest.feed_evaluation := feedEvaluation |}) |}.

Definition recommendationRequest (c : Client) (now : Z)
  (userId countryId : JSValue) (cattleInfo : CattleInfo)
  (feedSelection : list FeedWithPrice.t) : Request :=
  {| method := POST;
     url := baseUrl c ++ "/diet-recommendation-working/";
     headers := getAuthHeaders c;
     body := Some (RecommendationBody
       {| DietRecommendationRequest.simulation_id := "sim-" ++ string_of_Z now;
          DietRecommendationRequest.user_id := userId;
          DietRecommendationRequest.cattle_info := cattleInfo;
          DietRecommendationRequest.feed_selection := feedSelection;
          DietRecommendationRequest.country_id := countryId |}) |}.

(** The exchange that ends both operations: one call, then the JSON body on
    success and an error built from the status and the body text otherwise. *)
Definition exchange (E : Env) (failed : string) (req : Request) (w : World)
  : Outcome JSValue * World :=
  match backend E (calls w) req with
  | Rejected e => (Threw e, logged req w)
  | Resolved resp =>
      if ok resp then (json resp, logged req w)
      else
        match text resp with
        | Returned errorText =>
            (Threw (JsError (failed ++ string_of_Z (status resp) ++ " - " ++ errorText)),
             logged req w)
        | Threw e => (Threw e, logged req w)
        end
  end.

(** The user ids of the diet requests among [rs], in order. *)
Definition diet_user_ids (rs : list Request) : list JSValue :=
  flat_map (fun r => match body r with
                     | Some (EvaluationBody b) => [DietEvaluationRequest.user_id b]
                     | Some (RecommendationBody b) => [DietRecommendationRequest.user_id b]
                     | _ => []
                     end) rs.

(** The country an ApiKey-mode operation settles on. *)
Definition resolvedCountry (E : Env) (countryId : option string)
  (feedIds : list string) (w : World) : Outcome JSValue * World :=
  if given countryId then (Returned (arg countryId), w)
  else
    match detectCountryFromFeeds E feedIds w with
    | (Returned detected, w') =>
        if truthy detected then (Returned detected, w')
        else (Threw MissingCountryContext, w')
    | (Threw e, w') => (Threw e, w')
    end.

(** What an EmailPin-mode operation sends as country or currency: the
    argument when given, else the accessor's answer. *)
Definition argumentOr (x : option string) (accessor : Eff JSValue) (w : World)
  : Outcome JSValue * World :=
  if given x then (Returned (arg x), w) else accessor w.

(** The run made its calls after those of [w], exactly one of them a diet
    request, and that one carries [uid] as user id. *)
Definition dispatches_as (w : World) (run : Outcome JSValue * World)
  (uid : JSValue) : Prop :=
  exists new,
    calls (snd run) = (calls w ++ new)%list /\ diet_user_ids new = [uid].

(** The run threw without sending any diet request. *)
Definition fails_unsent (w : World) (run : Outcome JSValue * World) : Prop :=
  exists new e,
    calls (snd run) = (calls w ++ new)%list
    /\ diet_user_ids new = []
    /\ fst run = Threw e.

(** ** Scenarios used to exercise the theorems *)

Definition respond (v : JSValue) : Response :=
  {| ok := true; status := 200; statusText := "OK";
     json := Returned v; text := Returned "" |}.

Definition refuse (code : Z) (reason : string) : Response :=
  {| ok := false; status := code; statusText := reason;
     json := Threw (JsError "Unexpected end of JSON input"); text := Returned "" |}.

Fixpoint route (routes : list (string * FetchOutcome)) (target : string)
  : FetchOutcome :=
  match routes with
  | [] => Rejected (JsError ("request to " ++ target ++ " failed"))
  | (u, answer) :: routes' =>
      if String.eqb u target then answer else route routes' target
  end.

Fixpoint plain_urlencoded (query : list (string * string)) : string :=
  match query with
  | [] => ""
  | [(k, v)] => k ++ "=" ++ v
  | (k, v) :: rest => k ++ "=" ++ v ++ "&" ++ plain_urlencoded rest
  end.

(** A backend that answers by URL, with a clock that ticks once per call. *)
Definition served (routes : list (string * FetchOutcome)) : Env :=
  {| backend := fun _ r => route routes (url r);
     clock := fun history => (1700000000000 + Z.of_nat (length history))%Z;
     form_urlencoded := plain_urlencoded |}.

Definition start (c : Client) : World :=
  {| this := c; calls := []; warnings := [] |}.

Definition keyClient : Client :=
  {| baseUrl := "http://api"; apiKey := Some "key-1";
     userEmail := None; userPin := None;
     cachedUserId := JNull; cachedCountryId := JNull;
     cachedCurrency := JNull; organizationId := None |}.

Definition pinClient : Client :=
  {| baseUrl := "http://api"; apiKey := None;
     userEmail := Some "a@b.c"; userPin := Some "1234";
     cachedUserId := JNull; cachedCountryId := JNull;
     cachedCurrency := JNull; organizationId := None |}.

Definition loginOf (id : string) : JSValue :=
  JObj [("success", JBool true);
        ("user", JObj [("id", JStr id); ("name", JStr "Abebe");
                       ("email_id", JStr "a@b.c"); ("country_id", JStr "c-et")])].

(** A login endpoint that answers with user id ["u-1"] and no currency. *)
Definition loginServer : Env :=
  served [("http://api/auth/login", Resolved (respond (loginOf "u-1")))].

(** A login endpoint whose success body carries an empty user id. *)
Definition emptyIdServer : Env :=
  served [("http://api/auth/login", Resolved (respond (loginOf "")))].

(** A login endpoint that refuses the credentials. *)
Definition refusingServer : Env :=
  served [("http://api/auth/login", Resolved (refuse 401 "Unauthorized"))].

Definition sampleCattle : CattleInfo :=
  {| body_weight := 600; breed := "Holstein"; lactating := true;
     milk_production := 25; days_in_milk := 100; parity := 2;
     days_of_pregnancy := 0; tp_milk := 32 # 10; fat_milk := 38 # 10;
     temperature := 20; topography := "Flat"; distance := 1;
     calving_interval := 370; bw_gain := None; bc_score := None |}.

Definition sampleRation : list FeedEvaluationItem.t :=
  [{| FeedEvaluationItem.feed_id := "f1";
      FeedEvaluationItem.quantity_as_fed := 10;
      FeedEvaluationItem.price_per_kg := 25 # 10 |}].

Definition sampleSelection : list FeedWithPrice.t :=
  [{| FeedWithPrice.feed_id := "f1"; FeedWithPrice.price_per_kg := 25 # 10 |}].

Definition feedF1 : JSValue :=
  JObj [("feed_id", JStr "f1"); ("fd_name", JStr "Teff straw");
        ("fd_country_id", JStr "c-et")].

(** A backend with feed ["f1"], both diet endpoints, the login endpoint and
    the feed search answered with an envelope. *)
Definition dietServer : Env :=
  served [("http://api/feeds/f1", Resolved (respond feedF1));
          ("http://api/diet-evaluation-working/",
           Resolved (respond (JObj [("report_id", JStr "r-1")])));
          ("http://api/diet-recommendation-working/",
           Resolved (respond (JObj [("report_id", JStr "r-2")])));
          ("http://api/auth/login", Resolved (respond (loginOf "u-1")));
          ("http://api/feeds/",
           Resolved (respond (JObj [("total", JNum 1); ("feeds", JArr [feedF1])])))].

(** The same feed search answered with the bare list. *)
Definition bareListServer : Env :=
  served [("http://api/feeds/", Resolved (respond (JArr [feedF1])))].

(** A backend that knows no feed. *)
Definition notFoundServer : Env :=
  served [("http://api/feeds/nope", Resolved (refuse 404 "Not Found"))].

Definition noFilter : SearchParams.t :=
  {| SearchParams.country_id := None; SearchParams.feed_type := None;
     SearchParams.feed_category := None; SearchParams.limit := None;
     SearchParams.offset := None |}.

(** ** The MCP server: who the backend client is ([src/index.ts])

    The text of the HTTP layer is Latin-1: a header value is a sequence of
    code units below 256, one [ascii] each. *)

(** The code units that [String.prototype.trim] strips, among those below
    256: tab, line feed, vertical tab, form feed, carriage return, space and
    the no-break space. *)
Definition is_whitespace (a : ascii) : bool :=
  existsb (N.eqb (N_of_ascii a)) [9; 10; 11; 12; 13; 32; 160]%N.

Fixpoint trimStart (s : string) : string :=
  match s with
  | EmptyString => EmptyString
  | String a s' => if is_whitespace a then trimStart s' else s
  end.

Fixpoint trimEnd (s : string) : string :=
  match s with
  | EmptyString => EmptyString
  | String a s' =>
      match trimEnd s' with
      | EmptyString => if is_whitespace a then EmptyString else String a EmptyString
      | rest => String a rest
      end
  end.

(** [s.trim()] *)
Definition trim (s : string) : string := trimEnd (trimStart s).

(** [s.substring(n)] *)
Fixpoint substring_from (n : nat) (s : string) : string :=
  match n, s with
  | O, _ => s
  | S n', String _ s' => substring_from n' s'
  | S _, EmptyString => EmptyString
  end.

(** [s.startsWith(p)] *)
Definition startsWith (s p : string) : bool := String.prefix p s.

(** [s.includes(part)] *)
Fixpoint includes (s part : string) : bool :=
  if String.prefix part s then true
  else
    match s with
    | EmptyString => false
    | String _ s' => includes s' part
    end.

(** The part of an incoming request the server reads:
    [req.headers.authorization]. *)
Record IncomingRequest : Type := { authorization : option string }.

Definition extractApiKeyFromRequest (req : IncomingRequest) : option string :=
  let authHeader := authorization req in
  match authHeader with
  | None => None
  | Some header =>
      if negb (given authHeader) then None
      else if startsWith header "Bearer "
      then Some (trim (substring_from 7 header))
      else Some (trim header)
  end.

(** [process.env]: a variable is a string or is not set. *)
Definition ProcessEnv : Type := string -> option string.

(** [x || fallback] for an environment variable. *)
Definition or_else (x : option string) (fallback : string) : string :=
  match x with
  | Some s => if given x then s else fallback
  | None => fallback
  end.

(** [s || undefined] *)
Definition or_undefined (s : string) : option string :=
  if given (Some s) then Some s else None.

Section Server.

Variable process_env : ProcessEnv.

Definition FEED_API_BASE_URL : string :=
  or_else (process_env "FEED_API_BASE_URL") "http://47.128.1.51:8000".

Definition FEED_API_KEY : string := or_else (process_env "FEED_API_KEY") "".

Definition FEED_API_EMAIL : string := or_else (process_env "FEED_API_EMAIL") "".

Definition FEED_API_PIN : string := or_else (process_env "FEED_API_PIN") "".

Definition FEED_API_USER_ID : string := or_else (process_env "FEED_API_USER_ID") "".

Definition FEED_API_COUNTRY_ID : string :=
  or_else (process_env "FEED_API_COUNTRY_ID") "".

(** [createFeedClient(req)]: the client, or null, and what it printed with
    [console.error]. *)
Definition createFeedClient (req : IncomingRequest)
  : option Client * list (string * Thrown) :=
  let apiKey := extractApiKeyFromRequest req in
  if given apiKey then
    match constructor FEED_API_BASE_URL apiKey None None with
    | Returned client => (Some client, [])
    | Threw error =>
        (None, [("[MCP] Error creating feed client with API key from request:", error)])
    end
  else if given (Some FEED_API_KEY) then
    match constructor FEED_API_BASE_URL (Some FEED_API_KEY) None None with
    | Returned client => (Some client, [])
    | Threw error =>
        (None, [("[MCP] Error creating feed client with env API key:", error)])
    end
  else if given (Some FEED_API_EMAIL) && given (Some FEED_API_PIN) then
    match constructor FEED_API_BASE_URL None (Some FEED_API_EMAIL) (Some FEED_API_PIN) with
    | Returned client => (Some client, [])
    | Threw error =>
        (None, [("[MCP] Error creating feed client with email+PIN:", error)])
    end
  else (None, []).

(** The server with one client for the process (the second [index.ts]):
    whether the start-up warning about missing credentials is printed, and
    the module-level [feedClient]. *)
Definition warnsMissingCredentials : bool :=
  negb (given (Some FEED_API_KEY))
  && (negb (given (Some FEED_API_EMAIL)) || negb (given (Some FEED_API_PIN))).

Definition feedClient : Outcome (option Client) :=
  if given (Some FEED_API_KEY)
     || (given (Some FEED_API_EMAIL) && given (Some FEED_API_PIN))
  then
    match constructor FEED_API_BASE_URL (or_undefined FEED_API_KEY)
            (or_undefined FEED_API_EMAIL) (or_undefined FEED_API_PIN) with
    | Returned client => Returned (Some client)
    | Threw error => Threw error
    end
  else Returned None.

End Server.

(** ** The MCP tools ([src/index.ts]) *)

(** The validated parameters of the two diet tools. *)
Module EvaluateDietParams.
Record t : Type := {
  body_weight : Q;
  breed : string;
  lactating : bool;
  milk_production : Q;
  days_in_milk : Q;
  parity : Q;
  days_of_pregnancy : Q;
  tp_milk : Q;
  fat_milk : Q;
  temperature : Q;
  topography : string;
  distance : Q;
  calving_interval : Q;
  feeds : list FeedEvaluationItem.t
}.
End EvaluateDietParams.

Module RecommendationParams.
Record t : Type := {
  body_weight : Q;
  breed : string;
  lactating : bool;
  milk_production : Q;
  days_in_milk : Q;
  parity : Q;
  days_of_pregnancy : Q;
  tp_milk : Q;
  fat_milk : Q;
  temperature : Q;
  topography : string;
  distance : Q;
  calving_interval : Q;
  feeds : list FeedWithPrice.t
}.
End RecommendationParams.

(** The object an error is reported with, before [JSON.stringify]. *)
Record ErrorReport : Type := {
  error : string;
  message : JSValue;
  details : JSValue;
  suggestion : string
}.

(** The text of a tool result, before it is made a string. *)
Inductive ToolText : Type :=
| Stringified (v : JSValue)
| StringifiedReport (r : ErrorReport)
| StringifiedFeeds (count feeds : JSValue)
| Template (prefix : string) (v : JSValue).

(** [{ content: [{ type: 'text', text }], isError }] *)
Record ToolResult : Type := { text_of : ToolText; isError : bool }.

(** What a tool handler did: its result or rejection, what it printed with
    [console.error], and the state it left. *)
Record HandlerRun : Type := {
  outcome : Outcome ToolResult;
  printed : list (string * Thrown);
  after : World
}.

(** [error.message] for a caught value. *)
Definition messageOf (e : Thrown) : Outcome JSValue :=
  match e with
  | JsError m => Returned (JStr m)
  | NonError v => get v "message"
  end.

(** [error.response?.data?.k]; an [Error] has no [response]. *)
Definition responseData (e : Thrown) (k : string) : Outcome JSValue :=
  match e with
  | JsError _ => Returned JUndefined
  | NonError v =>
      match get v "response" with
      | Threw t => Threw t
      | Returned response =>
          match get_opt response "data" with
          | Threw t => Threw t
          | Returned data => get_opt data k
          end
      end
  end.

(** [errorMessage.includes(part)] for the truthy value [errorMessage]: the
    method of strings, the method of arrays, and a TypeError for anything
    else. *)
Definition includes_of (errorMessage : JSValue) (part : string) : Outcome bool :=
  match errorMessage with
  | JStr s => Returned (includes s part)
  | JArr items =>
      Returned (existsb (fun x => match x with
                                  | JStr t => String.eqb t part
                                  | _ => false
                                  end) items)
  | _ => Threw (JsError "errorMessage.includes is not a function")
  end.

(** [feeds.length] *)
Definition length_of (v : JSValue) : Outcome JSValue :=
  match v with
  | JArr items => Returned (JNum (inject_Z (Z.of_nat (length items))))
  | JStr s => Returned (JNum (inject_Z (Z.of_nat (String.length s))))
  | _ => get v "length"
  end.

(** The [catch] block shared by the four tools of the server that builds a
    client per request: the report, with the suggestion chosen by
    [suggest]. *)
Definition report (label : string) (caught : Thrown)
  (suggest : JSValue -> Outcome string) : Outcome ToolResult :=
  match messageOf caught with
  | Threw t => Threw t
  | Returned m =>
      let errorMessage := js_or m (JStr "Unknown error occurred") in
      match responseData caught "detail" with
      | Threw t => Threw t
      | Returned detail =>
          match (if truthy detail then Returned detail
                 else responseData caught "message") with
          | Threw t => Threw t
          | Returned other =>
              let errorDetails := js_or (js_or detail other) (JStr "") in
              match suggest errorMessage with
              | Threw t => Threw t
              | Returned suggestion =>
                  Returned
                    {| text_of := StringifiedReport
                         {| error := label;
                            message := errorMessage;
                            details := js_or errorDetails JUndefined;
                            suggestion := suggestion |};
                       isError := true |}
              end
          end
      end
  end.

Definition suggest_evaluate_diet (errorMessage : JSValue) : Outcome string :=
  match includes_of errorMessage "country_id" with
  | Threw t => Threw t
  | Returned true =>
      Returned "Ensure feeds have country_id set or provide country_id explicitly"
  | Returned false =>
      match includes_of errorMessage "user_id" with
      | Threw t => Threw t
      | Returned true =>
          Returned "User ID is automatically handled - this error should not occur"
      | Returned false =>
          Returned "Check feed IDs are valid and API credentials are correct"
      end
  end.

Definition suggest_get_diet_recommendation (errorMessage : JSValue)
  : Outcome string :=
  match includes_of errorMessage "country_id" with
  | Threw t => Threw t
  | Returned true =>
      Returned "Ensure feeds have country_id set or provide country_id explicitly"
  | Returned false =>
      match includes_of errorMessage "6-10 feeds" with
      | Threw t => Threw t
      | Returned true =>
          Returned "Provide 6-10 feeds with a mix of forage and concentrate types"
      | Returned false =>
          Returned "Check feed IDs are valid, prices are provided, and API credentials are correct"
      end
  end.

Definition suggest_get_feed_info (errorMessage : JSValue) : Outcome string :=
  match includes_of errorMessage "404" with
  | Threw t => Threw t
  | Returned true =>
      Returned "Verify the feed_id is correct and the feed exists in the database"
  | Returned false =>
      match includes_of errorMessage "not found" with
      | Threw t => Threw t
      | Returned true =>
          Returned "Verify the feed_id is correct and the feed exists in the database"
      | Returned false => Returned "Check API credentials and network connectivity"
      end
  end.

Definition suggest_search_feeds (_ : JSValue) : Outcome string :=
  Returned "Check filter parameters (country_id, feed_type, feed_category) are valid UUIDs or enum values".

Definition cattleInfo_of_evaluation (params : EvaluateDietParams.t) : CattleInfo :=
  {| body_weight := EvaluateDietParams.body_weight params;
     breed := EvaluateDietParams.breed params;
     lactating := EvaluateDietParams.lactating params;
     milk_production := EvaluateDietParams.milk_production params;
     days_in_milk := EvaluateDietParams.days_in_milk params;
     parity := EvaluateDietParams.parity params;
     days_of_pregnancy := EvaluateDietParams.days_of_pregnancy params;
     tp_milk := EvaluateDietParams.tp_milk params;
     fat_milk := EvaluateDietParams.fat_milk params;
     temperature := EvaluateDietParams.temperature params;
     topography := EvaluateDietParams.topography params;
     distance := EvaluateDietParams.distance params;
     calving_interval := EvaluateDietParams.calving_interval params;
     bw_gain := None; bc_score := None |}.

Definition cattleInfo_of_recommendation (params : RecommendationParams.t)
  : CattleInfo :=
  {| body_weight := RecommendationParams.body_weight params;
     breed := RecommendationParams.breed params;
     lactating := RecommendationParams.lactating params;
     milk_production := RecommendationParams.milk_production params;
     days_in_milk := RecommendationParams.days_in_milk params;
     parity := RecommendationParams.parity params;
     days_of_pregnancy := RecommendationParams.days_of_pregnancy params;
     tp_milk := RecommendationParams.tp_milk params;
     fat_milk := RecommendationParams.fat_milk params;
     temperature := RecommendationParams.temperature params;
     topography := RecommendationParams.topography params;
     distance := RecommendationParams.distance params;
     calving_interval := RecommendationParams.calving_interval params;
     bw_gain := None; bc_score := None |}.

(** [params.feeds.map(f => ({ ... }))] *)
Definition feedEvaluation_of (params : EvaluateDietParams.t)
  : list FeedEvaluationItem.t :=
  map (fun f =>
         {| FeedEvaluationItem.feed_id := FeedEvaluationItem.feed_id f;
            FeedEvaluationItem.quantity_as_fed := FeedEvaluationItem.quantity_as_fed f;
            FeedEvaluationItem.price_per_kg := FeedEvaluationItem.price_per_kg f |})
      (EvaluateDietParams.feeds params).

Definition feedSelection_of (params : RecommendationParams.t)
  : list FeedWithPrice.t :=
  map (fun f =>
         {| FeedWithPrice.feed_id := FeedWithPrice.feed_id f;
            FeedWithPrice.price_per_kg := FeedWithPrice.price_per_kg f |})
      (RecommendationParams.feeds params).

Section Tools.

Variable E : Env.

(** [try { ... } catch (error) { console.error(tag, error); ... }] around a
    client call. *)
Definition handle (call : Eff JSValue) (render : JSValue -> Outcome ToolText)
  (tag : string) (recover : Thrown -> Outcome ToolResult) (w : World)
  : HandlerRun :=
  let caught (e : Thrown) (w' : World) :=
    {| outcome := recover e; printed := [(tag, e)]; after := w' |} in
  match call w with
  | (Returned result, w') =>
      match render result with
      | Returned shown =>
          {| outcome := Returned {| text_of := shown; isError := false |};
             printed := []; after := w' |}
      | Threw e => caught e w'
      end
  | (Threw e, w') => caught e w'
  end.

(** The tools of the server that builds a client per request. *)
Definition tool_evaluate_diet (params : EvaluateDietParams.t) : World -> HandlerRun :=
  handle
    (evaluateDiet E (cattleInfo_of_evaluation params) (feedEvaluation_of params)
       None None None)
    (fun result => Returned (Stringified result))
    "[MCP Tool] Error in evaluate_diet:"
    (fun e => report "Diet evaluation failed" e suggest_evaluate_diet).

Definition tool_get_diet_recommendation (params : RecommendationParams.t)
  : World -> HandlerRun :=
  handle
    (getDietRecommendation E (cattleInfo_of_recommendation params)
       (feedSelection_of params) None None)
    (fun result => Returned (Stringified result))
    "[MCP Tool] Error in get_diet_recommendation:"
    (fun e => report "Diet recommendation failed" e suggest_get_diet_recommendation).

Definition tool_get_feed_info (feed_id : string) : World -> HandlerRun :=
  handle
    (getFeedById E feed_id)
    (fun feed => Returned (Stringified feed))
    "[MCP Tool] Error in get_feed_info:"
    (fun e => report "Failed to get feed information" e suggest_get_feed_info).

Definition tool_search_feeds (params : SearchParams.t) : World -> HandlerRun :=
  handle
    (searchFeeds E
       {| SearchParams.country_id := SearchParams.country_id params;
          SearchParams.feed_type := SearchParams.feed_type params;
          SearchParams.feed_category := SearchParams.feed_category params;
          SearchParams.limit := SearchParams.limit params;
          SearchParams.offset := SearchParams.offset params |})
    (fun feeds =>
       match length_of feeds with
       | Returned count => Returned (StringifiedFeeds count feeds)
       | Threw e => Threw e
       end)
    "[MCP Tool] Error in search_feeds:"
    (fun e => report "Feed search failed" e suggest_search_feeds).

(** The [catch] blocks of the server with one client for the process:
    [`${prefix}${error.message}`]. *)
Definition failed (prefix : string) (caught : Thrown) : Outcome ToolResult :=
  match messageOf caught with
  | Threw t => Threw t
  | Returned m => Returned {| text_of := Template prefix m; isError := true |}
  end.

Section ProcessClient.

Variable process_env : ProcessEnv.

(** The two diet tools of the server with one client for the process. *)
Definition process_tool_evaluate_diet (params : EvaluateDietParams.t)
  : World -> HandlerRun :=
  handle
    (evaluateDiet E (cattleInfo_of_evaluation params) (feedEvaluation_of params)
       (or_undefined (FEED_API_COUNTRY_ID process_env))
       None
       (or_undefined (FEED_API_USER_ID process_env)))
    (fun result => Returned (Stringified result))
    "[MCP Tool] Error in evaluate_diet:"
    (failed "Failed to evaluate diet: ").

Definition process_tool_get_diet_recommendation (params : RecommendationParams.t)
  : World -> HandlerRun :=
  handle
    (getDietRecommendation E (cattleInfo_of_recommendation params)
       (feedSelection_of params)
       (or_undefined (FEED_API_USER_ID process_env))
       None)
    (fun result => Returned (Stringified result))
    "[MCP Tool] Error in get_diet_recommendation:"
    (failed "Failed to get diet recommendation: ").

End ProcessClient.

End Tools.

(** ** Sessions: a caller using the public methods *)

(** One call of a public method of the class. *)
Inductive Call : Type :=
| CallGetUserId
| CallGetCountryId
| CallGetCurrency
| CallGetCountries
| CallGetFeedById (feedId : string)
| CallSearchFeeds (params : SearchParams.t)
| CallGetDietRecommendation (cattleInfo : CattleInfo)
    (feedSelection : list FeedWithPrice.t) (countryId userId : option string)
| CallEvaluateDiet (cattleInfo : CattleInfo)
    (feedEvaluation : list FeedEvaluationItem.t)
    (countryId currency userId : option string).

Definition perform (E : Env) (c : Call) : Eff JSValue :=
  match c with
  | CallGetUserId => getUserId E
  | CallGetCountryId => getCountryId E
  | CallGetCurrency => getCurrency E
  | CallGetCountries => getCountries E
  | CallGetFeedById feedId => getFeedById E feedId
  | CallSearchFeeds params => searchFeeds E params
  | CallGetDietRecommendation cattleInfo feedSelection countryId userId =>
      getDietRecommendation E cattleInfo feedSelection countryId userId
  | CallEvaluateDiet cattleInfo feedEvaluation countryId currency userId =>
      evaluateDiet E cattleInfo feedEvaluation countryId currency userId
  end.

(** A caller that awaits the calls one after the other on the same client,
    whatever each of them returns or throws. *)
Fixpoint session (E : Env) (cs : list Call) (w : World) : World :=
  match cs with
  | [] => w
  | c :: cs' => session E cs' (snd (perform E c w))
  end.

(** The fields the constructor sets and no method assigns. *)
Definition sameCredentials (c c' : Client) : Prop :=
  baseUrl c' = baseUrl c
  /\ apiKey c' = apiKey c
  /\ userEmail c' = userEmail c
  /\ userPin c' = userPin c
  /\ organizationId c' = organizationId c.

Definition is_login (r : Request) : bool :=
  match body r with
  | Some (LoginBody _ _) => true
  | _ => false
  end.

(** A diet request names a country, and an evaluation request a currency. *)
Definition names_country (r : Request) : Prop :=
  match body r with
  | Some (EvaluationBody b) =>
      truthy (DietEvaluationRequest.country_id b) = true
      /\ truthy (DietEvaluationRequest.currency b) = true
  | Some (RecommendationBody b) =>
      truthy (DietRecommendationRequest.country_id b) = true
  | _ => True
  end.

(** The requests a client in state [c] may send: the login request, only
    without an API key and with no user id cached; any other request with
    the client's authentication headers. *)
Definition permitted (c : Client) (r : Request) : Prop :=
  if is_login r
  then given (apiKey c) = false
       /\ truthy (cachedUserId c) = false
       /\ r = loginRequest c
  else headers r = getAuthHeaders c /\ names_country r.

(** A client whose cache no method writes any more. *)
Definition settled (c : Client) : Prop :=
  given (apiKey c) = true \/ truthy (cachedUserId c) = true.

(** [w'] is reached from [w] by the client's own doing. *)
Definition advances (w w' : World) : Prop :=
  sameCredentials (this w) (this w')
  /\ (settled (this w) -> this w' = this w)
  /\ exists new,
       calls w' = (calls w ++ new)%list /\ Forall (permitted (this w)) new.

(** A session used to exercise the session theorems: an evaluation, an
    accessor, a search and a recommendation. *)
Definition sampleSession : list Call :=
  [CallEvaluateDiet sampleCattle sampleRation None None None;
   CallGetCountryId;
   CallSearchFeeds noFilter;
   CallGetDietRecommendation sampleCattle sampleSelection None None].

Definition refuseWith (code : Z) (reason detail : string) : Response :=
  {| ok := false; status := code; statusText := reason;
     json := Threw (JsError "Unexpected token"); text := Returned detail |}.

(** A backend that refuses both diet requests with an explanation. *)
Definition strictServer : Env :=
  served [("http://api/diet-evaluation-working/",
           Resolved (refuseWith 422 "Unprocessable Entity" "feed list too short"));
          ("http://api/diet-recommendation-working/",
           Resolved (refuseWith 422 "Unprocessable Entity" "feed list too short"))].


(** The client [new FeedFormulationClient(url0, key)] returns for a
    non-empty key. *)
Definition constructor_value (url0 key : string) : option Client :=
  Some {| baseUrl := url0; apiKey := Some key; userEmail := None; userPin := None;
          cachedUserId := JNull; cachedCountryId := JNull;
          cachedCurrency := JNull; organizationId := None |}.

(** An environment given by its variables. *)
Fixpoint settings (vars : list (string * string)) : ProcessEnv :=
  fun name =>
    match vars with
    | [] => None
    | (k, v) :: vars' => if String.eqb name k then Some v else settings vars' name
    end.

(** A deployment configured with an API key, and also with an e-mail, a
    PIN, a user id and a country. *)
Definition fullEnv : ProcessEnv :=
  settings [("FEED_API_BASE_URL", "http://api"); ("FEED_API_KEY", "env-key");
            ("FEED_API_EMAIL", "a@b.c"); ("FEED_API_PIN", "1234");
            ("FEED_API_USER_ID", "u-7"); ("FEED_API_COUNTRY_ID", "c-ke")].

(** A deployment configured with an e-mail but no PIN. *)
Definition halfEnv : ProcessEnv := settings [("FEED_API_EMAIL", "a@b.c")].

(** The client [new FeedFormulationClient(url0, undefined, email, pin)]
    returns for a non-empty e-mail and PIN. *)
Definition constructor_pair (url0 email pin : string) : option Client :=
  Some {| baseUrl := url0; apiKey := None; userEmail := Some email;
          userPin := Some pin;
          cachedUserId := JNull; cachedCountryId := JNull;
          cachedCurrency := JNull; organizationId := None |}.

(** The run of a tool whose client call returned [result]. *)
Definition answered (shown : ToolText) (w' : World) : HandlerRun :=
  {| outcome := Returned {| text_of := shown; isError := false |};
     printed := []; after := w' |}.

(** The run of a tool of the per-request server whose client call threw the
    [Error] [m]: the error is printed once and reported, with some
    suggestion. *)
Definition reported (label tag m suggestion : string) (w' : World) : HandlerRun :=
  {| outcome :=
       Returned
         {| text_of := StringifiedReport
              {| error := label;
                 message := JStr (if String.eqb m "" then "Unknown error occurred" else m);
                 details := JUndefined;
                 suggestion := suggestion |};
            isError := true |};
     printed := [(tag, JsError m)];
     after := w' |}.

(** Every character of [s] satisfies [p]. *)
Fixpoint only (p : ascii -> bool) (s : string) : bool :=
  match s with
  | EmptyString => true
  | String a s' => p a && only p s'
  end.

Definition is_digit_or_minus (a : ascii) : bool :=
  existsb (Ascii.eqb a) (list_ascii_of_string "0123456789-").

Definition sampleDietParams : EvaluateDietParams.t :=
  {| EvaluateDietParams.body_weight := 600;
     EvaluateDietParams.breed := "Holstein";
     EvaluateDietParams.lactating := true;
     EvaluateDietParams.milk_production := 25;
     EvaluateDietParams.days_in_milk := 100;
     EvaluateDietParams.parity := 2;
     EvaluateDietParams.days_of_pregnancy := 0;
     EvaluateDietParams.tp_milk := 32 # 10;
     EvaluateDietParams.fat_milk := 38 # 10;
     EvaluateDietParams.temperature := 20;
     EvaluateDietParams.topography := "Flat";
     EvaluateDietParams.distance := 1;
     EvaluateDietParams.calving_interval := 370;
     EvaluateDietParams.feeds := sampleRation |}.

Definition sampleRecParams : RecommendationParams.t :=
  {| RecommendationParams.body_weight := 600;
     RecommendationParams.breed := "Holstein";
     RecommendationParams.lactating := true;
     RecommendationParams.milk_production := 25;
     RecommendationParams.days_in_milk := 100;
     RecommendationParams.parity := 2;
     RecommendationParams.days_of_pregnancy := 0;
     RecommendationParams.tp_milk := 32 # 10;
     RecommendationParams.fat_milk := 38 # 10;
     RecommendationParams.temperature := 20;
     RecommendationParams.topography := "Flat";
     RecommendationParams.distance := 1;
     RecommendationParams.calving_interval := 370;
     RecommendationParams.feeds := sampleSelection |}.

(** The text of the result of a run, when it has one. *)
Definition text_of_run (run : HandlerRun) : option ToolText :=
  match outcome run with
  | Returned result => Some (text_of result)
  | Threw _ => None
  end.




(** ** Proof steps *)

Ltac run :=
  unfold bind, ret, throw, lift, try_catch, get_this, set_this, assign, fetch,
    Date_now, console_warn;
  simpl.

(** Case analysis on the answer to the call that ends an operation. *)
Ltac settle_exchange :=
  simpl;
  match goal with
  | |- context [backend ?E ?history ?req] =>
      destruct (backend E history req) as [?resp|?e]; [|reflexivity];
      destruct (ok _); simpl; [reflexivity|];
      destruct (text _); reflexivity
  end.

(** ** Basic facts *)

Lemma given_Some (o : option string) :
  given o = true -> exists s, o = Some s /\ s <> "".
Proof.
  destruct o as [s|]; simpl; [|discriminate].
  intros H. exists s. split; [reflexivity|].
  intros ->. discriminate.
Qed.

Lemma given_empty : given (Some "") = false.
Proof. reflexivity. Qed.

Lemma given_None : given None = false.
Proof. reflexivity. Qed.

Lemma mode_ApiKey (c : Client) : mode c = Some ApiKey <-> given (apiKey c) = true.
Proof.
  unfold mode. destruct (given (apiKey c)).
  - split; reflexivity.
  - destruct (given (userEmail c) && given (userPin c)); split; discriminate.
Qed.

Lemma mode_EmailPin (c : Client) :
  mode c = Some EmailPin <->
  given (apiKey c) = false /\ given (userEmail c) = true /\ given (userPin c) = true.
Proof.
  unfold mode. destruct (given (apiKey c)).
  - split; [discriminate | intros [H _]; discriminate].
  - destruct (given (userEmail c)), (given (userPin c)); simpl;
      split; try discriminate; try (intros (_ & A & B); discriminate);
      auto.
Qed.

Section AccessorFacts.

Variable E : Env.

Lemma getUserId_apiKey (w : World) :
  given (apiKey (this w)) = true ->
  getUserId E w = (Threw UnsupportedOperation_userId, w).
Proof.
  intros H. unfold getUserId, bind, get_this. rewrite H. reflexivity.
Qed.

Lemma getCountryId_apiKey (w : World) :
  given (apiKey (this w)) = true ->
  getCountryId E w = (Threw UnsupportedOperation_countryId, w).
Proof.
  intros H. unfold getCountryId, bind, get_this. rewrite H. reflexivity.
Qed.

Lemma getCurrency_apiKey (w : World) :
  given (apiKey (this w)) = true ->
  getCurrency E w = (Returned (JStr "USD"), w).
Proof.
  intros H. unfold getCurrency, bind, get_this. rewrite H. reflexivity.
Qed.

End AccessorFacts.

(** ** The repository's unit tests, replayed on the model *)

Example test_create_client_with_api_key :
  constructor "http://api" (Some "key-1") None None = Returned keyClient.
Proof. reflexivity. Qed.

Example test_no_credentials_provided :
  constructor "http://api" None None None
  = Threw (JsError "Either API key or email+PIN must be provided").
Proof. reflexivity. Qed.

Example test_fetch_feed_by_id :
  getFeedById dietServer "f1" (start keyClient)
  = (Returned feedF1,
     {| this := keyClient;
        calls := [{| method := GET; url := "http://api/feeds/f1";
                     headers := [("Content-Type", "application/json");
                                 ("Authorization", "Bearer key-1")];
                     body := None |}];
        warnings := [] |}).
Proof. reflexivity. Qed.

Example test_search_feeds_with_filters :
  url (searchRequest dietServer keyClient
         {| SearchParams.country_id := Some "country-123";
            SearchParams.feed_type := Some "Forage";
            SearchParams.feed_category := None;
            SearchParams.limit := Some 10%Z;
            SearchParams.offset := None |})
  = "http://api/feeds/?country_id=country-123&feed_type=Forage&limit=10".
Proof. reflexivity. Qed.

Example test_detect_country_from_first_feed :
  fst (detectCountryFromFeeds dietServer ["f1"] (start keyClient))
  = Returned (JStr "c-et").
Proof. reflexivity. Qed.

Example test_evaluate_diet_makes_two_calls :
  let run := evaluateDiet dietServer sampleCattle sampleRation None None None
               (start keyClient) in
  fst run = Returned (JObj [("report_id", JStr "r-1")])
  /\ length (calls (snd run)) = 2%nat.
Proof. split; reflexivity. Qed.

(** ** Construction (C2, C10) *)

(** C2. Without an API key and without a complete e-mail and PIN pair the
    constructor throws the missing-credentials error.  With an API key it
    returns a client in ApiKey mode whatever e-mail and PIN come with it: only
    the key is stored, the e-mail and PIN fields stay null, and on that client
    [getUserId] and [getCountryId] reject without any outbound call. *)
Theorem constructor_selects_mode (url0 : string) (key email pin : option string) :
  (given key = false -> given email && given pin = false ->
   constructor url0 key email pin = Threw MissingCredentials)
  /\
  (given key = true ->
   exists c,
     constructor url0 key email pin = Returned c
     /\ apiKey c = key /\ userEmail c = None /\ userPin c = None
     /\ mode c = Some ApiKey
     /\ forall (E : Env) (w : World), this w = c ->
          getUserId E w = (Threw UnsupportedOperation_userId, w)
          /\ getCountryId E w = (Threw UnsupportedOperation_countryId, w)).
Proof.
  split.
  - intros Hk Hep. unfold constructor. rewrite Hk, Hep. reflexivity.
  - intros Hk. unfold constructor. rewrite Hk.
    eexists. split; [reflexivity|]. simpl.
    split; [reflexivity|]. split; [reflexivity|]. split; [reflexivity|].
    split; [apply mode_ApiKey; exact Hk|].
    intros E w Hw. split.
    + apply getUserId_apiKey. rewrite Hw. exact Hk.
    + apply getCountryId_apiKey. rewrite Hw. exact Hk.
Qed.

Lemma constructor_selects_mode_witness :
  constructor "http://api" None (Some "a@b.c") None = Threw MissingCredentials
  /\ constructor "http://api" (Some "key-1") (Some "a@b.c") (Some "1234")
     = Returned keyClient
  /\ mode keyClient = Some ApiKey
  /\ getUserId loginServer (start keyClient)
     = (Threw UnsupportedOperation_userId, start keyClient)
  /\ getCountryId loginServer (start keyClient)
     = (Threw UnsupportedOperation_countryId, start keyClient).
Proof.
  split.
  - apply (proj1 (constructor_selects_mode "http://api" None (Some "a@b.c") None));
      reflexivity.
  - destruct (proj2 (constructor_selects_mode "http://api" (Some "key-1")
                       (Some "a@b.c") (Some "1234")) eq_refl)
      as (c & Hnew & _ & _ & _ & Hmode & Hreject).
    injection Hnew as Hc. subst c.
    split; [reflexivity|]. split; [exact Hmode|].
    apply (Hreject loginServer (start keyClient)). reflexivity.
Defined.

(** C10. An empty API key is an absent API key: the constructor gives the
    same result for [""] as for no key, whatever the e-mail and PIN; alone it
    throws the missing-credentials error, and with a non-empty e-mail and PIN
    it gives an EmailPin-mode client with no key stored.  An empty e-mail or
    an empty PIN likewise gives the same result as an absent one. *)
Theorem constructor_empty_is_absent (url0 : string) (key email pin : option string) :
  constructor url0 (Some "") email pin = constructor url0 None email pin
  /\ constructor url0 (Some "") None None = Threw MissingCredentials
  /\ (given email = true -> given pin = true ->
      exists c,
        constructor url0 (Some "") email pin = Returned c
        /\ apiKey c = None /\ userEmail c = email /\ userPin c = pin
        /\ mode c = Some EmailPin)
  /\ constructor url0 key (Some "") pin = constructor url0 key None pin
  /\ constructor url0 key email (Some "") = constructor url0 key email None
  /\ constructor url0 None (Some "") pin = Threw MissingCredentials
  /\ constructor url0 None email (Some "") = Threw MissingCredentials.
Proof.
  split; [reflexivity|].
  split; [reflexivity|].
  split.
  { intros He Hp. unfold constructor. rewrite given_empty, He, Hp. simpl.
    eexists. split; [reflexivity|]. simpl.
    split; [reflexivity|]. split; [reflexivity|]. split; [reflexivity|].
    apply mode_EmailPin. simpl. auto. }
  split.
  { unfold constructor. destruct (given key); reflexivity. }
  split.
  { unfold constructor. destruct (given key); [reflexivity|].
    rewrite given_empty, given_None, !andb_false_r. reflexivity. }
  split.
  { reflexivity. }
  unfold constructor.
  rewrite given_None, given_empty, andb_false_r. reflexivity.
Qed.

Lemma constructor_empty_is_absent_witness :
  exists c,
    constructor "http://api" (Some "") (Some "a@b.c") (Some "1234") = Returned c
    /\ apiKey c = None /\ userEmail c = Some "a@b.c" /\ userPin c = Some "1234"
    /\ mode c = Some EmailPin.
Proof.
  apply (proj1 (proj2 (proj2 (constructor_empty_is_absent "http://api" None
                                (Some "a@b.c") (Some "1234")))));
    reflexivity.
Defined.

(** ** Identity accessors under an API key (C7) *)

(** C7. On an ApiKey-mode client [getUserId] and [getCountryId] throw their
    unsupported-operation errors and [getCurrency] returns ["USD"]; none of the
    three touches the call log, the cache or the warnings. *)
Theorem apiKey_accessors (E : Env) (w : World) :
  mode (this w) = Some ApiKey ->
  getUserId E w = (Threw UnsupportedOperation_userId, w)
  /\ getCountryId E w = (Threw UnsupportedOperation_countryId, w)
  /\ getCurrency E w = (Returned (JStr "USD"), w).
Proof.
  intros H. apply mode_ApiKey in H.
  auto using getUserId_apiKey, getCountryId_apiKey, getCurrency_apiKey.
Qed.

Lemma apiKey_accessors_witness :
  getUserId dietServer (start keyClient)
  = (Threw UnsupportedOperation_userId, start keyClient)
  /\ getCountryId dietServer (start keyClient)
     = (Threw UnsupportedOperation_countryId, start keyClient)
  /\ getCurrency dietServer (start keyClient)
     = (Returned (JStr "USD"), start keyClient).
Proof.
  apply (apiKey_accessors dietServer (start keyClient)). reflexivity.
Defined.

(** ** Reading properties *)

Lemma get_truthy (v : JSValue) (k : string) :
  truthy v = true -> get v k = Returned (field v k).
Proof.
  unfold field. destruct v; simpl; try discriminate; try reflexivity.
  destruct (lookup k fields); reflexivity.
Qed.

Lemma get_opt_total (v : JSValue) (k : string) :
  exists x, get_opt v k = Returned x.
Proof.
  destruct v; simpl; eauto.
  destruct (lookup k fields); eauto.
Qed.

Lemma contains_middle (pre part post : string) : contains part (pre ++ part ++ post).
Proof. exists pre, post. reflexivity. Qed.

Lemma append_empty_r (s : string) : s ++ "" = s.
Proof. induction s as [|a s IH]; simpl; [reflexivity | now rewrite IH]. Qed.

Lemma contains_suffix (pre part : string) : contains part (pre ++ part).
Proof. exists pre, "". now rewrite append_empty_r. Qed.

(** ** Feed lookup and search (C8, C6) *)

(** C8. Whatever the feed id, when the backend answers the lookup with a
    non-success response, [getFeedById] throws an [Error] (it does not
    return) whose message is ["Failed to get feed: "] followed by the status
    code in decimal: it contains the word "feed" and the status code. *)
Theorem getFeedById_non_success (E : Env) (w : World) (feedId : string)
  (resp : Response) :
  backend E (calls w) (feedRequest (this w) feedId) = Resolved resp ->
  ok resp = false ->
  exists msg,
    getFeedById E feedId w
    = (Threw (JsError msg), logged (feedRequest (this w) feedId) w)
    /\ msg = "Failed to get feed: " ++ string_of_Z (status resp)
    /\ contains "feed" msg
    /\ contains (string_of_Z (status resp)) msg.
Proof.
  intros Hb Hok. eexists. split; [|split; [reflexivity|split]].
  - unfold getFeedById. run. rewrite Hb, Hok. reflexivity.
  - apply (contains_middle "Failed to get " "feed" (": " ++ _)).
  - apply contains_suffix.
Qed.

Lemma getFeedById_non_success_witness :
  exists msg,
    getFeedById notFoundServer "nope" (start keyClient)
    = (Threw (JsError msg), logged (feedRequest keyClient "nope") (start keyClient))
    /\ msg = "Failed to get feed: 404"
    /\ contains "feed" msg
    /\ contains "404" msg.
Proof.
  apply (getFeedById_non_success notFoundServer (start keyClient) "nope"
           (refuse 404 "Not Found")); reflexivity.
Defined.

(** C6. A successful search answered with an envelope object whose [feeds]
    entry is the list, and one answered with the bare list, return the same
    list to the caller and leave the client in the same state. *)
Theorem searchFeeds_both_shapes (E1 E2 : Env) (w : World)
  (params : SearchParams.t) (r1 r2 : Response)
  (envelope : list (string * JSValue)) (feeds : list JSValue) :
  form_urlencoded E1 = form_urlencoded E2 ->
  backend E1 (calls w) (searchRequest E1 (this w) params) = Resolved r1 ->
  ok r1 = true ->
  json r1 = Returned (JObj envelope) ->
  lookup "feeds" envelope = Some (JArr feeds) ->
  backend E2 (calls w) (searchRequest E2 (this w) params) = Resolved r2 ->
  ok r2 = true ->
  json r2 = Returned (JArr feeds) ->
  searchFeeds E1 params w
  = (Returned (JArr feeds), logged (searchRequest E1 (this w) params) w)
  /\ searchFeeds E2 params w = searchFeeds E1 params w.
Proof.
  intros Henc Hb1 Hok1 Hj1 Hfeeds Hb2 Hok2 Hj2.
  assert (Hreq : searchRequest E2 (this w) params = searchRequest E1 (this w) params).
  { unfold searchRequest. rewrite Henc. reflexivity. }
  assert (H1 : searchFeeds E1 params w
               = (Returned (JArr feeds), logged (searchRequest E1 (this w) params) w)).
  { unfold searchFeeds. run. rewrite Hb1, Hok1, Hj1. simpl.
    rewrite Hfeeds. reflexivity. }
  split; [exact H1|].
  rewrite H1. unfold searchFeeds. run. rewrite Hb2, Hok2, Hj2. simpl.
  rewrite Hreq. reflexivity.
Qed.

Lemma searchFeeds_both_shapes_witness :
  searchFeeds dietServer noFilter (start keyClient)
  = (Returned (JArr [feedF1]),
     logged (searchRequest dietServer keyClient noFilter) (start keyClient))
  /\ searchFeeds bareListServer noFilter (start keyClient)
     = searchFeeds dietServer noFilter (start keyClient).
Proof.
  apply (searchFeeds_both_shapes dietServer bareListServer (start keyClient) noFilter
           (respond (JObj [("total", JNum 1); ("feeds", JArr [feedF1])]))
           (respond (JArr [feedF1]))
           [("total", JNum 1); ("feeds", JArr [feedF1])] [feedF1]);
    reflexivity.
Defined.

(** ** Country detection (C4) *)

Section Detection.

Variable E : Env.

Lemma detect_empty (w : World) :
  detectCountryFromFeeds E [] w = (Returned JNull, w).
Proof. reflexivity. Qed.

(** The detector as a function of the answer to its single lookup. *)
Lemma detect_cases (w : World) (first : string) (rest : list string) :
  let req := feedRequest (this w) first in
  detectCountryFromFeeds E (first :: rest) w =
  match backend E (calls w) req with
  | Rejected e => (Returned JNull, warned e (logged req w))
  | Resolved resp =>
      if ok resp then
        match json resp with
        | Threw e => (Returned JNull, warned e (logged req w))
        | Returned record =>
            match get record "fd_country_id" with
            | Threw e => (Returned JNull, warned e (logged req w))
            | Returned v => (Returned (js_or v JNull), logged req w)
            end
        end
      else (Returned JNull,
            warned (JsError ("Failed to get feed: " ++ string_of_Z (status resp)))
                   (logged req w))
  end.
Proof.
  unfold detectCountryFromFeeds, getFeedById. run.
  destruct (backend E (calls w) (feedRequest (this w) first)) as [resp|e];
    [|reflexivity].
  destruct (ok resp); simpl; [|reflexivity].
  destruct (json resp) as [record|e]; [|reflexivity].
  destruct (get record "fd_country_id"); reflexivity.
Qed.

Lemma detect_total (w : World) (feedIds : list string) :
  exists v w',
    detectCountryFromFeeds E feedIds w = (Returned v, w')
    /\ this w' = this w
    /\ calls w' = match feedIds with
                  | [] => calls w
                  | first :: _ => (calls w ++ [feedRequest (this w) first])%list
                  end.
Proof.
  destruct feedIds as [|first rest].
  - exists JNull, w. auto.
  - rewrite detect_cases.
    destruct (backend E (calls w) (feedRequest (this w) first)) as [resp|e];
      [|eauto].
    destruct (ok resp); [|eauto].
    destruct (json resp) as [record|e]; [|eauto].
    destruct (get record "fd_country_id"); eauto.
Qed.

End Detection.

(** C4. In any client mode: on an empty list the detector returns null and
    leaves the state as it is (no call).  On a non-empty list it always
    returns (it never throws), makes exactly one call, the lookup of the
    first id, and leaves the client object alone.  When that lookup succeeds
    the result is the record's [fd_country_id] if that is a usable (truthy)
    value and null if it is absent or empty, with no warning.  When the
    transport rejects, the status is not a success, the body is not JSON or
    the record cannot be read, the result is null and the error is logged as
    a warning. *)
Theorem detectCountry_contract (E : Env) (w : World) :
  detectCountryFromFeeds E [] w = (Returned JNull, w)
  /\ forall (first : string) (rest : list string),
       let req := feedRequest (this w) first in
       let run := detectCountryFromFeeds E (first :: rest) w in
       (exists v, fst run = Returned v)
       /\ calls (snd run) = (calls w ++ [req])%list
       /\ this (snd run) = this w
       /\ (forall resp record v,
             backend E (calls w) req = Resolved resp -> ok resp = true ->
             json resp = Returned record ->
             get record "fd_country_id" = Returned v ->
             run = (Returned (if truthy v then v else JNull), logged req w))
       /\ (forall resp record,
             backend E (calls w) req = Resolved resp -> ok resp = true ->
             json resp = Returned record ->
             get record "fd_country_id" = Returned JUndefined ->
             run = (Returned JNull, logged req w))
       /\ (forall e,
             backend E (calls w) req = Rejected e ->
             run = (Returned JNull, warned e (logged req w)))
       /\ (forall resp,
             backend E (calls w) req = Resolved resp -> ok resp = false ->
             run = (Returned JNull,
                    warned (JsError ("Failed to get feed: "
                                     ++ string_of_Z (status resp)))
                           (logged req w)))
       /\ (forall resp e,
             backend E (calls w) req = Resolved resp -> ok resp = true ->
             json resp = Threw e ->
             run = (Returned JNull, warned e (logged req w)))
       /\ (forall resp record e,
             backend E (calls w) req = Resolved resp -> ok resp = true ->
             json resp = Returned record ->
             get record "fd_country_id" = Threw e ->
             run = (Returned JNull, warned e (logged req w))).
Proof.
  split; [apply detect_empty|].
  intros first rest req run.
  destruct (detect_total E w (first :: rest)) as (v & w' & Hrun & Hthis & Hcalls).
  fold run in Hrun.
  split; [exists v; now rewrite Hrun|].
  split; [now rewrite Hrun|].
  split; [now rewrite Hrun|].
  subst run. rewrite detect_cases. fold req.
  split; [intros resp record x Hb Hok Hj Hg; now rewrite Hb, Hok, Hj, Hg|].
  split; [intros resp record Hb Hok Hj Hg; now rewrite Hb, Hok, Hj, Hg|].
  split; [intros e Hb; now rewrite Hb|].
  split; [intros resp Hb Hok; now rewrite Hb, Hok|].
  split; [intros resp e Hb Hok Hj; now rewrite Hb, Hok, Hj|].
  intros resp record e Hb Hok Hj Hg; now rewrite Hb, Hok, Hj, Hg.
Qed.

Lemma detectCountry_contract_witness :
  detectCountryFromFeeds dietServer ["f1"; "f2"] (start keyClient)
  = (Returned (JStr "c-et"), logged (feedRequest keyClient "f1") (start keyClient))
  /\ detectCountryFromFeeds notFoundServer ["nope"] (start pinClient)
     = (Returned JNull,
        warned (JsError "Failed to get feed: 404")
               (logged (feedRequest pinClient "nope") (start pinClient))).
Proof.
  split.
  - destruct (detectCountry_contract dietServer (start keyClient)) as [_ H].
    destruct (H "f1" ["f2"]) as (_ & _ & _ & Hfound & _).
    apply (Hfound (respond feedF1) feedF1 (JStr "c-et")); reflexivity.
  - destruct (detectCountry_contract notFoundServer (start pinClient)) as [_ H].
    destruct (H "nope" []) as (_ & _ & _ & _ & _ & _ & Hstatus & _).
    apply (Hstatus (refuse 404 "Not Found")); reflexivity.
Defined.

(** ** Authentication (C3, C9) *)

Lemma get_opt_field (v : JSValue) (k : string) :
  get_opt v k = Returned (field_opt v k).
Proof.
  unfold field_opt. destruct (get_opt_total v k) as [x ->]. reflexivity.
Qed.

Section Authentication.

Variable E : Env.

(** [authenticate] as a function of the answer to its login call. *)
Lemma authenticate_cases (w : World) :
  let c := this w in
  let w1 := logged (loginRequest c) w in
  let fail (m : string) : Outcome JSValue * World :=
    (Threw (JsError ("Failed to authenticate: " ++ m)), w1) in
  authenticate E w =
  if truthy (cachedUserId c) then (Returned (cachedUserId c), w)
  else if negb (given (userEmail c)) || negb (given (userPin c))
  then (Threw (JsError "Email and PIN required for authentication"), w)
  else
    match backend E (calls w) (loginRequest c) with
    | Rejected e => fail (errorMessage e)
    | Resolved resp =>
        if ok resp then
          match json resp with
          | Threw e => fail (errorMessage e)
          | Returned data =>
              match get data "success" with
              | Threw e => fail (errorMessage e)
              | Returned success =>
                  if truthy success then
                    if truthy (field data "user")
                    then (Returned (field (field data "user") "id"),
                          {| this := remember (field data "user") c;
                             calls := calls w1; warnings := warnings w |})
                    else fail "Invalid authentication response"
                  else fail "Invalid authentication response"
              end
          end
        else fail ("Authentication failed: " ++ string_of_Z (status resp)
                   ++ " " ++ statusText resp)
    end.
Proof.
  intros c w1 fail. subst c w1 fail. unfold authenticate. run.
  destruct (truthy (cachedUserId (this w))); [reflexivity|].
  destruct (negb (given (userEmail (this w))) || negb (given (userPin (this w))));
    [reflexivity|].
  run.
  destruct (backend E (calls w) (loginRequest (this w))) as [resp|e];
    [|reflexivity].
  destruct (ok resp); simpl; [|reflexivity].
  destruct (json resp) as [data|e]; [|reflexivity].
  destruct (get data "success") as [success|e] eqn:Hs; [|reflexivity].
  destruct (truthy success); simpl; [|reflexivity].
  destruct (get data "user") as [user|e] eqn:Hu.
  - assert (Hf : field data "user" = user) by (unfold field; now rewrite Hu).
    rewrite Hf.
    destruct (truthy user) eqn:Htu; simpl; [|reflexivity].
    rewrite !(get_truthy user) by exact Htu. run.
    rewrite get_opt_field. reflexivity.
  - destruct data; simpl in Hs, Hu; try discriminate.
    destruct (lookup "user" fields); discriminate.
Qed.

Lemma authenticate_hit (w : World) :
  truthy (cachedUserId (this w)) = true ->
  authenticate E w = (Returned (cachedUserId (this w)), w).
Proof. intros H. rewrite authenticate_cases. simpl. now rewrite H. Qed.

(** With nothing cached, an EmailPin-mode client calls the login endpoint. *)
Lemma authenticate_miss_calls (w : World) :
  mode (this w) = Some EmailPin ->
  truthy (cachedUserId (this w)) = false ->
  calls (snd (authenticate E w)) = (calls w ++ [loginRequest (this w)])%list.
Proof.
  intros Hm Hc. apply mode_EmailPin in Hm. destruct Hm as (_ & He & Hp).
  rewrite authenticate_cases. simpl. rewrite Hc, He, Hp. simpl.
  destruct (backend E (calls w) (loginRequest (this w))) as [resp|e];
    [|reflexivity].
  destruct (ok resp); [|reflexivity].
  destruct (json resp) as [data|e]; [|reflexivity].
  destruct (get data "success") as [success|e]; [|reflexivity].
  destruct (truthy success); [|reflexivity].
  destruct (truthy (field data "user")); reflexivity.
Qed.

(** A failed [authenticate] found nothing cached and wrote nothing. *)
Lemma authenticate_threw (w w' : World) (e : Thrown) :
  authenticate E w = (Threw e, w') ->
  this w' = this w /\ truthy (cachedUserId (this w)) = false.
Proof.
  rewrite authenticate_cases. simpl.
  destruct (truthy (cachedUserId (this w))); [discriminate|].
  destruct (negb (given (userEmail (this w))) || negb (given (userPin (this w)))).
  { intros H; inversion H; subst; auto. }
  destruct (backend E (calls w) (loginRequest (this w))) as [resp|e0].
  2:{ intros H; inversion H; subst; auto. }
  destruct (ok resp).
  2:{ intros H; inversion H; subst; auto. }
  destruct (json resp) as [data|e0].
  2:{ intros H; inversion H; subst; auto. }
  destruct (get data "success") as [success|e0].
  2:{ intros H; inversion H; subst; auto. }
  destruct (truthy success).
  2:{ intros H; inversion H; subst; auto. }
  destruct (truthy (field data "user")).
  - discriminate.
  - intros H; inversion H; subst; auto.
Qed.

End Authentication.

(** C9. Whenever [authenticate] throws, the client object, and so each of
    the three cached fields, is what it was before the call, and nothing was
    cached before it either; on an EmailPin-mode client the failed call made
    one login call and the next [authenticate] makes a login call again.  A
    non-success login status, a success body without a truthy [success] flag
    and one without a [user] object each make [authenticate] throw. *)
Theorem authenticate_failure_writes_nothing (E : Env) (w : World) :
  (forall e w',
     authenticate E w = (Threw e, w') ->
     this w' = this w
     /\ cachedUserId (this w') = cachedUserId (this w)
     /\ cachedCountryId (this w') = cachedCountryId (this w)
     /\ cachedCurrency (this w') = cachedCurrency (this w)
     /\ truthy (cachedUserId (this w')) = false
     /\ (mode (this w) = Some EmailPin ->
         calls w' = (calls w ++ [loginRequest (this w)])%list
         /\ calls (snd (authenticate E w'))
            = (calls w' ++ [loginRequest (this w')])%list))
  /\ (mode (this w) = Some EmailPin ->
      truthy (cachedUserId (this w)) = false ->
      forall resp,
        backend E (calls w) (loginRequest (this w)) = Resolved resp ->
        (ok resp = false
         \/ (exists data success,
               json resp = Returned data
               /\ get data "success" = Returned success
               /\ truthy success = false)
         \/ (exists data user,
               json resp = Returned data
               /\ get data "user" = Returned user
               /\ truthy user = false)) ->
        exists e w', authenticate E w = (Threw e, w')).
Proof.
  split.
  - intros e w' H.
    destruct (authenticate_threw E w w' e H) as [Hthis Hmiss].
    rewrite Hthis.
    repeat (split; [reflexivity || exact Hmiss|]).
    intros Hm.
    assert (Hc : calls w' = (calls w ++ [loginRequest (this w)])%list).
    { rewrite <- (authenticate_miss_calls E w Hm Hmiss). now rewrite H. }
    split; [exact Hc|].
    rewrite <- Hthis.
    apply authenticate_miss_calls; rewrite Hthis; assumption.
  - intros Hm Hmiss resp Hb Hbad.
    apply mode_EmailPin in Hm. destruct Hm as (_ & He & Hp).
    rewrite authenticate_cases. simpl. rewrite Hmiss, He, Hp, Hb. simpl.
    destruct Hbad as [Hok | [(data & success & Hj & Hs & Hts)
                            | (data & user & Hj & Hu & Htu)]].
    + rewrite Hok. eauto.
    + destruct (ok resp); [|eauto]. rewrite Hj, Hs, Hts. eauto.
    + destruct (ok resp); [|eauto]. rewrite Hj.
      assert (Hf : field data "user" = user) by (unfold field; now rewrite Hu).
      rewrite Hf, Htu.
      destruct (get data "success") as [success|e]; [|eauto].
      destruct (truthy success); eauto.
Qed.

Lemma authenticate_failure_writes_nothing_witness :
  exists e w',
    authenticate refusingServer (start pinClient) = (Threw e, w')
    /\ this w' = pinClient
    /\ calls w' = [loginRequest pinClient]
    /\ calls (snd (authenticate refusingServer w'))
       = [loginRequest pinClient; loginRequest pinClient].
Proof.
  destruct (authenticate_failure_writes_nothing refusingServer (start pinClient))
    as [Hkeep Hfail].
  destruct (Hfail eq_refl eq_refl (refuse 401 "Unauthorized") eq_refl
              (or_introl eq_refl)) as (e & w' & Hrun).
  exists e, w'. split; [exact Hrun|].
  destruct (Hkeep e w' Hrun) as (Hthis & _ & _ & _ & _ & Hcalls).
  destruct (Hcalls eq_refl) as [Hc1 Hc2].
  split; [exact Hthis|]. split; [exact Hc1|].
  rewrite Hc2, Hc1, Hthis. reflexivity.
Defined.

(** C3, as stated, fails: a login whose success body carries an empty user
    id makes [authenticate] return that empty id, and the second
    [authenticate] on the same client logs in again. *)
Lemma authenticate_empty_id_logs_in_twice :
  let first := authenticate emptyIdServer (start pinClient) in
  let second := authenticate emptyIdServer (snd first) in
  fst first = Returned (JStr "")
  /\ calls (snd first) = [loginRequest pinClient]
  /\ fst second = Returned (JStr "")
  /\ calls (snd second) = [loginRequest pinClient; loginRequest pinClient].
Proof. vm_compute. repeat split. Qed.

(** C3, amended. On an EmailPin-mode client with nothing cached, an
    [authenticate] that returns has made exactly one login call, returns the
    [id] of the [user] object of the login response and has stored that id,
    the user's [country_id] and the currency of the user's country, ["USD"]
    when the response has none.  When the returned id is non-empty (truthy),
    every later [authenticate] on that client returns it and changes
    nothing: no call is made. *)
Theorem authenticate_caches_identity (E : Env) (w w1 : World) (id : JSValue) :
  mode (this w) = Some EmailPin ->
  truthy (cachedUserId (this w)) = false ->
  authenticate E w = (Returned id, w1) ->
  calls w1 = (calls w ++ [loginRequest (this w)])%list
  /\ (exists resp data user,
        backend E (calls w) (loginRequest (this w)) = Resolved resp
        /\ ok resp = true
        /\ json resp = Returned data
        /\ get data "user" = Returned user
        /\ id = field user "id"
        /\ cachedUserId (this w1) = id
        /\ cachedCountryId (this w1) = field user "country_id"
        /\ cachedCurrency (this w1)
           = js_or (field_opt (field user "country") "currency") (JStr "USD")
        /\ (truthy (field_opt (field user "country") "currency") = false ->
            cachedCurrency (this w1) = JStr "USD"))
  /\ (truthy id = true ->
      forall w2, this w2 = this w1 -> authenticate E w2 = (Returned id, w2)).
Proof.
  intros Hm Hmiss Hrun.
  pose proof (authenticate_miss_calls E w Hm Hmiss) as Hcalls.
  rewrite Hrun in Hcalls. simpl in Hcalls.
  split; [exact Hcalls|].
  apply mode_EmailPin in Hm. destruct Hm as (_ & He & Hp).
  rewrite authenticate_cases in Hrun. simpl in Hrun.
  rewrite Hmiss, He, Hp in Hrun. simpl in Hrun.
  destruct (backend E (calls w) (loginRequest (this w))) as [resp|e];
    [|discriminate].
  destruct (ok resp) eqn:Hok; [|discriminate].
  destruct (json resp) as [data|e] eqn:Hj; [|discriminate].
  destruct (get data "success") as [success|e] eqn:Hs; [|discriminate].
  destruct (truthy success); [|discriminate].
  destruct (truthy (field data "user")) eqn:Htu; [|discriminate].
  inversion Hrun; subst id w1; clear Hrun. simpl.
  split.
  - exists resp, data, (field data "user").
    split; [reflexivity|]. split; [exact Hok|]. split; [exact Hj|].
    split.
    { clear - Hs. unfold field.
      destruct data; simpl in *; try discriminate; try reflexivity.
      destruct (lookup "user" fields); reflexivity. }
    split; [reflexivity|]. split; [reflexivity|]. split; [reflexivity|].
    split; [reflexivity|].
    intros Hno. unfold js_or. now rewrite Hno.
  - intros Hid w2 Hw2.
    rewrite authenticate_hit; rewrite Hw2; simpl; [reflexivity | exact Hid].
Qed.

Lemma authenticate_caches_identity_witness :
  let w1 := snd (authenticate loginServer (start pinClient)) in
  fst (authenticate loginServer (start pinClient)) = Returned (JStr "u-1")
  /\ calls w1 = [loginRequest pinClient]
  /\ cachedUserId (this w1) = JStr "u-1"
  /\ cachedCountryId (this w1) = JStr "c-et"
  /\ cachedCurrency (this w1) = JStr "USD"
  /\ authenticate loginServer w1 = (Returned (JStr "u-1"), w1).
Proof.
  intros w1.
  destruct (authenticate_caches_identity loginServer (start pinClient) w1
              (JStr "u-1") eq_refl eq_refl eq_refl)
    as (Hcalls & _ & Hhit).
  split; [reflexivity|]. split; [exact Hcalls|].
  split; [reflexivity|]. split; [reflexivity|]. split; [reflexivity|].
  apply Hhit; reflexivity.
Defined.

(** ** Diet evaluation and recommendation (C1, C5) *)

Lemma exchange_calls (E : Env) (failed : string) (req : Request) (w : World) :
  calls (snd (exchange E failed req w)) = (calls w ++ [req])%list.
Proof.
  unfold exchange. destruct (backend E (calls w) req) as [resp|e]; [|reflexivity].
  destruct (ok resp); [reflexivity|]. destruct (text resp); reflexivity.
Qed.

Section Operations.

Variable E : Env.

Lemma evaluateDiet_apiKey_cases (w : World) (cattleInfo : CattleInfo)
  (feedEvaluation : list FeedEvaluationItem.t)
  (countryId currency userId : option string) :
  given (apiKey (this w)) = true ->
  evaluateDiet E cattleInfo feedEvaluation countryId currency userId w =
  match resolvedCountry E countryId (map FeedEvaluationItem.feed_id feedEvaluation) w with
  | (Threw e, w') => (Threw e, w')
  | (Returned country, w') =>
      exchange E "Diet evaluation failed: "
        (evaluationRequest (this w') (clock E (calls w'))
           (js_or (arg userId) serviceAccount) country
           (js_or (arg currency) (JStr "USD")) cattleInfo feedEvaluation) w'
  end.
Proof.
  intros Hk.
  unfold evaluateDiet, resolvedCountry, exchange, evaluationRequest, logged,
    js_or, getServiceAccountUserId, serviceAccount, MissingCountryContext.
  run. rewrite Hk.
  change (truthy (arg userId)) with (given userId).
  destruct (given countryId); run.
  - destruct (given userId); run;
      destruct (backend E (calls w) _) as [resp|e]; try reflexivity;
      destruct (ok resp); simpl; try reflexivity;
      destruct (text resp); reflexivity.
  - destruct (detectCountryFromFeeds E _ w) as [[detected|e] w']; [|reflexivity].
    destruct (truthy detected); simpl; [|reflexivity].
    destruct (given userId); run;
      destruct (backend E (calls w') _) as [resp|e]; try reflexivity;
      destruct (ok resp); simpl; try reflexivity;
      destruct (text resp); reflexivity.
Qed.

Lemma getDietRecommendation_apiKey_cases (w : World) (cattleInfo : CattleInfo)
  (feedSelection : list FeedWithPrice.t) (countryId userId : option string) :
  given (apiKey (this w)) = true ->
  getDietRecommendation E cattleInfo feedSelection countryId userId w =
  match resolvedCountry E countryId (map FeedWithPrice.feed_id feedSelection) w with
  | (Threw e, w') => (Threw e, w')
  | (Returned country, w') =>
      exchange E "Diet recommendation failed: "
        (recommendationRequest (this w') (clock E (calls w'))
           (js_or (arg userId) serviceAccount) country cattleInfo feedSelection) w'
  end.
Proof.
  intros Hk.
  unfold getDietRecommendation, resolvedCountry, exchange, recommendationRequest,
    logged, js_or, getServiceAccountUserId, serviceAccount, MissingCountryContext.
  run. rewrite Hk.
  change (truthy (arg userId)) with (given userId).
  destruct (given countryId); run.
  - destruct (given userId); run;
      destruct (backend E (calls w) _) as [resp|e]; try reflexivity;
      destruct (ok resp); simpl; try reflexivity;
      destruct (text resp); reflexivity.
  - destruct (detectCountryFromFeeds E _ w) as [[detected|e] w']; [|reflexivity].
    destruct (truthy detected); simpl; [|reflexivity].
    destruct (given userId); run;
      destruct (backend E (calls w') _) as [resp|e]; try reflexivity;
      destruct (ok resp); simpl; try reflexivity;
      destruct (text resp); reflexivity.
Qed.

Lemma getUserId_emailPin (w : World) :
  given (apiKey (this w)) = false -> getUserId E w = authenticate E w.
Proof.
  intros Hk. unfold getUserId, bind, get_this. rewrite Hk.
  destruct (authenticate E w) as [[v|e] w']; reflexivity.
Qed.

(** [authenticate] dispatches no diet request, and leaves the key alone. *)
Lemma authenticate_trace (w : World) :
  exists new,
    calls (snd (authenticate E w)) = (calls w ++ new)%list
    /\ diet_user_ids new = []
    /\ apiKey (this (snd (authenticate E w))) = apiKey (this w).
Proof.
  rewrite authenticate_cases. simpl.
  destruct (truthy (cachedUserId (this w))).
  { exists []. simpl. rewrite app_nil_r. auto. }
  destruct (negb (given (userEmail (this w))) || negb (given (userPin (this w)))).
  { exists []. simpl. rewrite app_nil_r. auto. }
  exists [loginRequest (this w)].
  destruct (backend E (calls w) (loginRequest (this w))) as [resp|e]; [|auto].
  destruct (ok resp); [|auto].
  destruct (json resp) as [data|e]; [|auto].
  destruct (get data "success") as [success|e]; [|auto].
  destruct (truthy success); [|auto].
  destruct (truthy (field data "user")); auto.
Qed.

Lemma getCountryId_trace (w : World) :
  exists new,
    calls (snd (getCountryId E w)) = (calls w ++ new)%list
    /\ diet_user_ids new = []
    /\ apiKey (this (snd (getCountryId E w))) = apiKey (this w).
Proof.
  destruct (authenticate_trace w) as (new & Hc & Hn & Hk).
  unfold getCountryId. run.
  destruct (given (apiKey (this w))).
  { exists []. simpl. rewrite app_nil_r. auto. }
  run. destruct (authenticate E w) as [[v|e] w']; simpl in *; [|eauto].
  destruct (truthy (cachedCountryId (this w'))); simpl; eauto.
Qed.

Lemma getCurrency_trace (w : World) :
  exists new,
    calls (snd (getCurrency E w)) = (calls w ++ new)%list
    /\ diet_user_ids new = []
    /\ apiKey (this (snd (getCurrency E w))) = apiKey (this w).
Proof.
  destruct (authenticate_trace w) as (new & Hc & Hn & Hk).
  unfold getCurrency. run.
  destruct (given (apiKey (this w))).
  { exists []. simpl. rewrite app_nil_r. auto. }
  run. destruct (authenticate E w) as [[v|e] w']; simpl in *; eauto.
Qed.

Lemma evaluateDiet_emailPin_cases (w : World) (cattleInfo : CattleInfo)
  (feedEvaluation : list FeedEvaluationItem.t)
  (countryId currency userId : option string) :
  given (apiKey (this w)) = false ->
  evaluateDiet E cattleInfo feedEvaluation countryId currency userId w =
  match authenticate E w with
  | (Threw e, w1) => (Threw e, w1)
  | (Returned uid, w1) =>
      match argumentOr countryId (getCountryId E) w1 with
      | (Threw e, w2) => (Threw e, w2)
      | (Returned cid, w2) =>
          match argumentOr currency (getCurrency E) w2 with
          | (Threw e, w3) => (Threw e, w3)
          | (Returned cur, w3) =>
              exchange E "Diet evaluation failed: "
                (evaluationRequest (this w3) (clock E (calls w3)) uid cid cur
                   cattleInfo feedEvaluation) w3
          end
      end
  end.
Proof.
  intros Hk.
  unfold evaluateDiet, exchange, evaluationRequest, logged, argumentOr.
  run. rewrite Hk. rewrite (getUserId_emailPin w Hk).
  destruct (authenticate E w) as [[uid|e] w1]; [|reflexivity].
  destruct (given countryId); run.
  - destruct (given currency); run.
    + settle_exchange.
    + destruct (getCurrency E w1) as [[cur|e] w3]; [|reflexivity].
      settle_exchange.
  - destruct (getCountryId E w1) as [[cid|e] w2]; [|reflexivity].
    destruct (given currency); run.
    + settle_exchange.
    + destruct (getCurrency E w2) as [[cur|e] w3]; [|reflexivity].
      settle_exchange.
Qed.

Lemma getDietRecommendation_emailPin_cases (w : World) (cattleInfo : CattleInfo)
  (feedSelection : list FeedWithPrice.t) (countryId userId : option string) :
  given (apiKey (this w)) = false ->
  getDietRecommendation E cattleInfo feedSelection countryId userId w =
  match authenticate E w with
  | (Threw e, w1) => (Threw e, w1)
  | (Returned uid, w1) =>
      match argumentOr countryId (getCountryId E) w1 with
      | (Threw e, w2) => (Threw e, w2)
      | (Returned cid, w2) =>
          exchange E "Diet recommendation failed: "
            (recommendationRequest (this w2) (clock E (calls w2)) uid cid
               cattleInfo feedSelection) w2
      end
  end.
Proof.
  intros Hk.
  unfold getDietRecommendation, exchange, recommendationRequest, logged, argumentOr.
  run. rewrite Hk. rewrite (getUserId_emailPin w Hk).
  destruct (authenticate E w) as [[uid|e] w1]; [|reflexivity].
  destruct (given countryId); run.
  - settle_exchange.
  - destruct (getCountryId E w1) as [[cid|e] w2]; [|reflexivity].
    settle_exchange.
Qed.

End Operations.

Lemma diet_user_ids_app (xs ys : list Request) :
  diet_user_ids (xs ++ ys) = (diet_user_ids xs ++ diet_user_ids ys)%list.
Proof. apply flat_map_app. Qed.

Lemma detect_trace (E : Env) (w : World) (feedIds : list string) :
  exists v w' new,
    detectCountryFromFeeds E feedIds w = (Returned v, w')
    /\ this w' = this w
    /\ calls w' = (calls w ++ new)%list
    /\ diet_user_ids new = [].
Proof.
  destruct (detect_total E w feedIds) as (v & w' & Hrun & Hthis & Hcalls).
  exists v, w'.
  destruct feedIds as [|first rest].
  - exists []. rewrite app_nil_r. auto.
  - exists [feedRequest (this w) first]. auto.
Qed.

Lemma exchange_after (E : Env) (failed : string) (req : Request)
  (w w' : World) (sent : list Request) (uid : JSValue) :
  calls w' = (calls w ++ sent)%list ->
  diet_user_ids sent = [] ->
  diet_user_ids [req] = [uid] ->
  dispatches_as w (exchange E failed req w') uid.
Proof.
  intros Hc Hs Hr. exists (sent ++ [req])%list.
  rewrite exchange_calls, Hc, <- app_assoc, diet_user_ids_app, Hs.
  split; [reflexivity|exact Hr].
Qed.

Lemma argumentOr_trace (E : Env) (x : option string) (accessor : Eff JSValue)
  (w : World) :
  (exists new,
     calls (snd (accessor w)) = (calls w ++ new)%list
     /\ diet_user_ids new = []
     /\ apiKey (this (snd (accessor w))) = apiKey (this w)) ->
  exists new,
    calls (snd (argumentOr x accessor w)) = (calls w ++ new)%list
    /\ diet_user_ids new = []
    /\ apiKey (this (snd (argumentOr x accessor w))) = apiKey (this w).
Proof.
  intros H. unfold argumentOr. destruct (given x); [|exact H].
  exists []. simpl. rewrite app_nil_r. auto.
Qed.

(** C1. On an ApiKey-mode client, [evaluateDiet] with at least one feed and
    no country argument first looks up the first feed id.  When the
    detector comes back with a country, the run makes exactly one more
    call, a POST to the evaluation endpoint whose body carries that country
    and the simulation id ["eval-"] followed by the clock's milliseconds at
    that moment: two calls, in that order.  When the detector comes back
    empty-handed the run throws the missing-country error and the lookup is
    the only call made. *)
Theorem evaluateDiet_detects_country (E : Env) (w : World)
  (cattleInfo : CattleInfo) (item : FeedEvaluationItem.t)
  (items : list FeedEvaluationItem.t) (countryId currency userId : option string) :
  mode (this w) = Some ApiKey ->
  given countryId = false ->
  let feeds := item :: items in
  let probe := feedRequest (this w) (FeedEvaluationItem.feed_id item) in
  let detection :=
    detectCountryFromFeeds E (map FeedEvaluationItem.feed_id feeds) w in
  let run := evaluateDiet E cattleInfo feeds countryId currency userId w in
  exists detected,
    fst detection = Returned detected
    /\ calls (snd detection) = (calls w ++ [probe])%list
    /\ (truthy detected = true ->
        exists post b,
          calls (snd run) = (calls w ++ [probe; post])%list
          /\ post = evaluationRequest (this w) (clock E (calls w ++ [probe])%list)
                      (js_or (arg userId) serviceAccount) detected
                      (js_or (arg currency) (JStr "USD")) cattleInfo feeds
          /\ method post = POST
          /\ url post = baseUrl (this w) ++ "/diet-evaluation-working/"
          /\ body post = Some (EvaluationBody b)
          /\ DietEvaluationRequest.country_id b = detected
          /\ DietEvaluationRequest.simulation_id b
             = "eval-" ++ string_of_Z (clock E (calls w ++ [probe])%list))
    /\ (truthy detected = false ->
        run = (Threw MissingCountryContext, snd detection)
        /\ calls (snd run) = (calls w ++ [probe])%list).
Proof.
  intros Hm Hc feeds probe detection run.
  apply mode_ApiKey in Hm.
  destruct (detect_total E w (map FeedEvaluationItem.feed_id feeds))
    as (detected & w' & Hrun & Hthis & Hcalls).
  simpl in Hrun, Hcalls. fold probe in Hcalls.
  exists detected. subst detection. simpl map. rewrite Hrun. simpl fst. simpl snd.
  split; [reflexivity|]. split; [exact Hcalls|].
  subst run. rewrite (evaluateDiet_apiKey_cases E w _ _ _ _ _ Hm).
  unfold resolvedCountry. rewrite Hc. simpl map. rewrite Hrun.
  split.
  - intros Ht. rewrite Ht.
    eexists. eexists.
    rewrite exchange_calls, Hcalls, Hthis, <- app_assoc. simpl app.
    split; [reflexivity|]. split; [reflexivity|].
    split; [reflexivity|]. split; [reflexivity|].
    split; [reflexivity|]. split; reflexivity.
  - intros Ht. rewrite Ht. split; [reflexivity|exact Hcalls].
Qed.

Lemma evaluateDiet_detects_country_witness :
  calls (snd (evaluateDiet dietServer sampleCattle sampleRation None None None
                (start keyClient)))
  = [feedRequest keyClient "f1";
     evaluationRequest keyClient 1700000000001 serviceAccount (JStr "c-et")
       (JStr "USD") sampleCattle sampleRation].
Proof.
  destruct (evaluateDiet_detects_country dietServer (start keyClient) sampleCattle
              {| FeedEvaluationItem.feed_id := "f1";
                 FeedEvaluationItem.quantity_as_fed := 10;
                 FeedEvaluationItem.price_per_kg := 25 # 10 |}
              [] None None None eq_refl eq_refl)
    as (detected & Hd & _ & Hyes & _).
  injection Hd as Hd. subst detected.
  destruct (Hyes eq_refl) as (post & b & Hcalls & Hpost & _).
  rewrite Hpost in Hcalls. exact Hcalls.
Defined.

(** C5. The user id in the diet request that [evaluateDiet] and
    [getDietRecommendation] dispatch.  In ApiKey mode each run either
    dispatches one diet request, whose user id is the [userId] argument when
    one is given (non-empty) and the zero-valued service-account id
    otherwise, or throws with no diet request sent.  In EmailPin mode each
    run either dispatches one diet request whose user id is what
    [authenticate] returned on the state the run started from, or throws
    with no diet request sent; and the run is the same whatever [userId]
    argument is passed. *)
Theorem diet_request_user_id (E : Env) (w : World) (cattleInfo : CattleInfo)
  (feedEvaluation : list FeedEvaluationItem.t)
  (feedSelection : list FeedWithPrice.t)
  (countryId currency userId : option string) :
  let evaluation :=
    evaluateDiet E cattleInfo feedEvaluation countryId currency userId w in
  let recommendation :=
    getDietRecommendation E cattleInfo feedSelection countryId userId w in
  let expected := if given userId then arg userId
                  else JStr "00000000-0000-0000-0000-000000000000" in
  (mode (this w) = Some ApiKey ->
   (dispatches_as w evaluation expected \/ fails_unsent w evaluation)
   /\ (dispatches_as w recommendation expected \/ fails_unsent w recommendation))
  /\
  (mode (this w) = Some EmailPin ->
   ((exists uid, fst (authenticate E w) = Returned uid
                 /\ dispatches_as w evaluation uid)
    \/ fails_unsent w evaluation)
   /\ ((exists uid, fst (authenticate E w) = Returned uid
                    /\ dispatches_as w recommendation uid)
       \/ fails_unsent w recommendation)
   /\ forall other : option string,
        evaluateDiet E cattleInfo feedEvaluation countryId currency other w
        = evaluation
        /\ getDietRecommendation E cattleInfo feedSelection countryId other w
           = recommendation).
Proof.
  intros evaluation recommendation expected. split.
  - intros Hm. apply mode_ApiKey in Hm.
    assert (Hexp : js_or (arg userId) serviceAccount = expected) by reflexivity.
    split.
    + subst evaluation. rewrite (evaluateDiet_apiKey_cases E w _ _ _ _ _ Hm).
      rewrite Hexp. unfold resolvedCountry.
      destruct (given countryId).
      * left. apply (exchange_after E _ _ w w []);
          [now rewrite app_nil_r | reflexivity | reflexivity].
      * destruct (detect_trace E w (map FeedEvaluationItem.feed_id feedEvaluation))
          as (v & w' & sent & Hrun & _ & Hc & Hs).
        rewrite Hrun. destruct (truthy v).
        -- left. apply (exchange_after E _ _ w w' sent _ Hc Hs). reflexivity.
        -- right. exists sent, MissingCountryContext. auto.
    + subst recommendation.
      rewrite (getDietRecommendation_apiKey_cases E w _ _ _ _ Hm).
      rewrite Hexp. unfold resolvedCountry.
      destruct (given countryId).
      * left. apply (exchange_after E _ _ w w []);
          [now rewrite app_nil_r | reflexivity | reflexivity].
      * destruct (detect_trace E w (map FeedWithPrice.feed_id feedSelection))
          as (v & w' & sent & Hrun & _ & Hc & Hs).
        rewrite Hrun. destruct (truthy v).
        -- left. apply (exchange_after E _ _ w w' sent _ Hc Hs). reflexivity.
        -- right. exists sent, MissingCountryContext. auto.
  - intros Hm. apply mode_EmailPin in Hm. destruct Hm as (Hk & _ & _).
    split; [|split].
    + subst evaluation. rewrite (evaluateDiet_emailPin_cases E w _ _ _ _ _ Hk).
      destruct (authenticate_trace E w) as (n1 & Hc1 & Hs1 & Hk1).
      destruct (authenticate E w) as [[uid|e] w1]; simpl in Hc1, Hk1;
        [|right; exists n1, e; auto].
      destruct (argumentOr_trace E countryId (getCountryId E) w1
                  (getCountryId_trace E w1)) as (n2 & Hc2 & Hs2 & Hk2).
      destruct (argumentOr countryId (getCountryId E) w1) as [[cid|e] w2];
        simpl in Hc2, Hk2.
      2:{ right. exists (n1 ++ n2)%list, e. simpl.
          rewrite Hc2, Hc1, <- app_assoc, diet_user_ids_app, Hs1, Hs2. auto. }
      destruct (argumentOr_trace E currency (getCurrency E) w2
                  (getCurrency_trace E w2)) as (n3 & Hc3 & Hs3 & Hk3).
      destruct (argumentOr currency (getCurrency E) w2) as [[cur|e] w3];
        simpl in Hc3, Hk3.
      2:{ right. exists (n1 ++ n2 ++ n3)%list, e. simpl.
          rewrite Hc3, Hc2, Hc1, <- !app_assoc, !diet_user_ids_app, Hs1, Hs2, Hs3.
          auto. }
      left. exists uid. split; [reflexivity|].
      apply (exchange_after E _ _ w w3 (n1 ++ n2 ++ n3)%list).
      * now rewrite Hc3, Hc2, Hc1, <- !app_assoc.
      * now rewrite !diet_user_ids_app, Hs1, Hs2, Hs3.
      * reflexivity.
    + subst recommendation.
      rewrite (getDietRecommendation_emailPin_cases E w _ _ _ _ Hk).
      destruct (authenticate_trace E w) as (n1 & Hc1 & Hs1 & Hk1).
      destruct (authenticate E w) as [[uid|e] w1]; simpl in Hc1, Hk1;
        [|right; exists n1, e; auto].
      destruct (argumentOr_trace E countryId (getCountryId E) w1
                  (getCountryId_trace E w1)) as (n2 & Hc2 & Hs2 & Hk2).
      destruct (argumentOr countryId (getCountryId E) w1) as [[cid|e] w2];
        simpl in Hc2, Hk2.
      2:{ right. exists (n1 ++ n2)%list, e. simpl.
          rewrite Hc2, Hc1, <- app_assoc, diet_user_ids_app, Hs1, Hs2. auto. }
      left. exists uid. split; [reflexivity|].
      apply (exchange_after E _ _ w w2 (n1 ++ n2)%list).
      * now rewrite Hc2, Hc1, <- !app_assoc.
      * now rewrite !diet_user_ids_app, Hs1, Hs2.
      * reflexivity.
    + intros other. subst evaluation recommendation.
      rewrite !(evaluateDiet_emailPin_cases E w _ _ _ _ _ Hk).
      rewrite !(getDietRecommendation_emailPin_cases E w _ _ _ _ Hk).
      split; reflexivity.
Qed.

Lemma diet_request_user_id_witness :
  dispatches_as (start keyClient)
    (evaluateDiet dietServer sampleCattle sampleRation None None (Some "u-9")
       (start keyClient))
    (JStr "u-9")
  /\ dispatches_as (start keyClient)
       (getDietRecommendation dietServer sampleCattle sampleSelection None None
          (start keyClient))
       (JStr "00000000-0000-0000-0000-000000000000")
  /\ dispatches_as (start pinClient)
       (evaluateDiet dietServer sampleCattle sampleRation None None (Some "u-9")
          (start pinClient))
       (JStr "u-1").
Proof.
  split; [|split].
  - destruct (proj1 (diet_request_user_id dietServer (start keyClient) sampleCattle
                       sampleRation sampleSelection None None (Some "u-9")) eq_refl)
      as [[H | (new & e & _ & _ & H)] _]; [exact H | discriminate H].
  - destruct (proj1 (diet_request_user_id dietServer (start keyClient) sampleCattle
                       sampleRation sampleSelection None None None) eq_refl)
      as [_ [H | (new & e & _ & _ & H)]]; [exact H | discriminate H].
  - destruct (proj2 (diet_request_user_id dietServer (start pinClient) sampleCattle
                       sampleRation sampleSelection None None (Some "u-9")) eq_refl)
      as [[(uid & Hu & H) | (new & e & _ & _ & H)] _].
    + injection Hu as Hu. subst uid. exact H.
    + discriminate H.
Defined.

(** ** Sessions of public calls *)

Lemma sameCredentials_refl (c : Client) : sameCredentials c c.
Proof. repeat split. Qed.

Lemma permitted_back (c c' : Client) (r : Request) :
  sameCredentials c c' ->
  (settled c -> c' = c) ->
  permitted c' r -> permitted c r.
Proof.
  intros (Hb & Hk & He & Hp & _) Hs. unfold permitted.
  destruct (is_login r).
  - intros (Hkey & Hmiss & Hr). split; [now rewrite <- Hk|].
    split.
    + destruct (truthy (cachedUserId c)) eqn:Hc; [|reflexivity].
      rewrite (Hs (or_intror Hc)) in Hmiss. congruence.
    + rewrite Hr. unfold loginRequest. now rewrite Hb, He, Hp.
  - intros [Hh Hn]. split; [|exact Hn].
    rewrite Hh. unfold getAuthHeaders. now rewrite Hk.
Qed.

Lemma advances_refl (w : World) : advances w w.
Proof.
  split; [apply sameCredentials_refl|]. split; [reflexivity|].
  exists []. rewrite app_nil_r. auto.
Qed.

Lemma advances_trans (w1 w2 w3 : World) :
  advances w1 w2 -> advances w2 w3 -> advances w1 w3.
Proof.
  intros (Hc1 & Hs1 & n1 & Hl1 & Hp1) (Hc2 & Hs2 & n2 & Hl2 & Hp2).
  split; [|split].
  - destruct Hc1 as (A1 & A2 & A3 & A4 & A5), Hc2 as (B1 & B2 & B3 & B4 & B5).
    repeat split; congruence.
  - intros Hs. pose proof (Hs1 Hs) as H12.
    rewrite <- H12. apply Hs2. rewrite H12. exact Hs.
  - exists (n1 ++ n2)%list. split; [now rewrite Hl2, Hl1, app_assoc|].
    apply Forall_app. split; [exact Hp1|].
    eapply Forall_impl; [|exact Hp2].
    intros r. apply permitted_back; assumption.
Qed.

Lemma advances_logged (w : World) (r : Request) :
  permitted (this w) r -> advances w (logged r w).
Proof.
  intros Hp. split; [apply sameCredentials_refl|]. split; [reflexivity|].
  exists [r]. split; [reflexivity|]. constructor; [exact Hp|constructor].
Qed.

Lemma advances_warned (w w' : World) (e : Thrown) :
  advances w w' -> advances w (warned e w').
Proof. intros H. exact H. Qed.

Section Advancing.

Variable E : Env.

Lemma authenticate_advances (w : World) :
  given (apiKey (this w)) = false ->
  advances w (snd (authenticate E w)).
Proof.
  intros Hk. rewrite authenticate_cases. simpl.
  destruct (truthy (cachedUserId (this w))) eqn:Hmiss; [apply advances_refl|].
  destruct (negb (given (userEmail (this w))) || negb (given (userPin (this w))));
    [apply advances_refl|].
  assert (Hlogin : permitted (this w) (loginRequest (this w))).
  { unfold permitted. simpl. auto. }
  assert (Hfail : advances w (logged (loginRequest (this w)) w))
    by (apply advances_logged; exact Hlogin).
  destruct (backend E (calls w) (loginRequest (this w))) as [resp|e];
    [|exact Hfail].
  destruct (ok resp); [|exact Hfail].
  destruct (json resp) as [data|e]; [|exact Hfail].
  destruct (get data "success") as [success|e]; [|exact Hfail].
  destruct (truthy success); [|exact Hfail].
  destruct (truthy (field data "user")); [|exact Hfail].
  simpl. split; [repeat split|]. split.
  - intros [Hs | Hs]; simpl in Hs; congruence.
  - exists [loginRequest (this w)]. split; [reflexivity|].
    constructor; [exact Hlogin|constructor].
Qed.

Lemma getUserId_advances (w : World) : advances w (snd (getUserId E w)).
Proof.
  destruct (given (apiKey (this w))) eqn:Hk.
  - rewrite getUserId_apiKey by exact Hk. apply advances_refl.
  - rewrite getUserId_emailPin by exact Hk. now apply authenticate_advances.
Qed.

Lemma getCountryId_advances (w : World) : advances w (snd (getCountryId E w)).
Proof.
  destruct (given (apiKey (this w))) eqn:Hk.
  - rewrite getCountryId_apiKey by exact Hk. apply advances_refl.
  - pose proof (authenticate_advances w Hk) as Ha.
    unfold getCountryId. run. rewrite Hk. run.
    destruct (authenticate E w) as [[v|e] w1]; simpl in *; [|exact Ha].
    destruct (truthy (cachedCountryId (this w1))); exact Ha.
Qed.

Lemma getCurrency_advances (w : World) : advances w (snd (getCurrency E w)).
Proof.
  destruct (given (apiKey (this w))) eqn:Hk.
  - rewrite getCurrency_apiKey by exact Hk. apply advances_refl.
  - pose proof (authenticate_advances w Hk) as Ha.
    unfold getCurrency. run. rewrite Hk. run.
    destruct (authenticate E w) as [[v|e] w1]; simpl in *; exact Ha.
Qed.

(** What the two EmailPin-mode accessors hand back is never empty. *)
Lemma getCountryId_returns_truthy (w w' : World) (v : JSValue) :
  getCountryId E w = (Returned v, w') ->
  truthy v = true /\ cachedCountryId (this w') = v.
Proof.
  unfold getCountryId. run.
  destruct (given (apiKey (this w))); [discriminate|]. run.
  destruct (authenticate E w) as [[u|e] w1]; [|discriminate].
  destruct (truthy (cachedCountryId (this w1))) eqn:Ht; [|discriminate].
  simpl. intros H. inversion H; subst. auto.
Qed.

Lemma js_or_truthy (a b : JSValue) : truthy b = true -> truthy (js_or a b) = true.
Proof. intros Hb. unfold js_or. destruct (truthy a) eqn:Ha; assumption. Qed.

Lemma getCurrency_returns_truthy (w w' : World) (v : JSValue) :
  getCurrency E w = (Returned v, w') -> truthy v = true.
Proof.
  unfold getCurrency. run.
  destruct (given (apiKey (this w))).
  { intros H. inversion H. reflexivity. }
  run. destruct (authenticate E w) as [[u|e] w1]; [|discriminate].
  simpl. intros H. inversion H. now apply js_or_truthy.
Qed.

Lemma plain_permitted (c : Client) (r : Request) :
  body r = None -> headers r = getAuthHeaders c -> permitted c r.
Proof.
  intros Hb Hh. unfold permitted, is_login, names_country. rewrite Hb. auto.
Qed.

Lemma getFeedById_snd (feedId : string) (w : World) :
  snd (getFeedById E feedId w) = logged (feedRequest (this w) feedId) w.
Proof.
  unfold getFeedById. run.
  destruct (backend E (calls w) (feedRequest (this w) feedId)) as [resp|e];
    [|reflexivity].
  destruct (ok resp); simpl; [|reflexivity].
  destruct (json resp); reflexivity.
Qed.

Lemma getCountries_snd (w : World) :
  snd (getCountries E w)
  = logged {| method := GET; url := baseUrl (this w) ++ "/auth/countries";
              headers := getAuthHeaders (this w); body := None |} w.
Proof.
  unfold getCountries. run.
  destruct (backend E (calls w) _) as [resp|e]; [|reflexivity].
  destruct (ok resp); simpl; [|reflexivity].
  destruct (json resp); reflexivity.
Qed.

Lemma searchFeeds_snd (params : SearchParams.t) (w : World) :
  snd (searchFeeds E params w) = logged (searchRequest E (this w) params) w.
Proof.
  unfold searchFeeds. run.
  destruct (backend E (calls w) (searchRequest E (this w) params)) as [resp|e];
    [|reflexivity].
  destruct (ok resp); simpl; [|reflexivity].
  destruct (json resp) as [data|e]; [|reflexivity].
  destruct (truthy data && typeof_object data && has_in "feeds" data);
    [|reflexivity].
  destruct (get data "feeds"); reflexivity.
Qed.

Lemma detect_advances (feedIds : list string) (w : World) :
  advances w (snd (detectCountryFromFeeds E feedIds w)).
Proof.
  destruct feedIds as [|first rest]; [apply advances_refl|].
  assert (H : advances w (logged (feedRequest (this w) first) w))
    by (apply advances_logged, plain_permitted; reflexivity).
  rewrite detect_cases.
  destruct (backend E (calls w) (feedRequest (this w) first)) as [resp|e];
    [|exact H].
  destruct (ok resp); [|exact H].
  destruct (json resp) as [record|e]; [|exact H].
  destruct (get record "fd_country_id"); exact H.
Qed.

Lemma exchange_snd (failed : string) (req : Request) (w : World) :
  snd (exchange E failed req w) = logged req w.
Proof.
  unfold exchange. destruct (backend E (calls w) req) as [resp|e]; [|reflexivity].
  destruct (ok resp); [reflexivity|]. destruct (text resp); reflexivity.
Qed.

Lemma resolvedCountry_advances (countryId : option string)
  (feedIds : list string) (w : World) :
  advances w (snd (resolvedCountry E countryId feedIds w))
  /\ forall v w', resolvedCountry E countryId feedIds w = (Returned v, w') ->
                  truthy v = true.
Proof.
  unfold resolvedCountry. destruct (given countryId) eqn:Hg.
  - split; [apply advances_refl|]. intros v w' H. inversion H. exact Hg.
  - pose proof (detect_advances feedIds w) as Ha.
    destruct (detectCountryFromFeeds E feedIds w) as [[d|e] w1]; simpl in *.
    + destruct (truthy d) eqn:Hd; split; try exact Ha.
      * intros v w' H. inversion H; subst. exact Hd.
      * discriminate.
    + split; [exact Ha | discriminate].
Qed.

Lemma argumentOr_advances (x : option string) (accessor : Eff JSValue) (w : World) :
  advances w (snd (accessor w)) ->
  (forall v w', accessor w = (Returned v, w') -> truthy v = true) ->
  advances w (snd (argumentOr x accessor w))
  /\ forall v w', argumentOr x accessor w = (Returned v, w') -> truthy v = true.
Proof.
  intros Ha Ht. unfold argumentOr. destruct (given x) eqn:Hg.
  - split; [apply advances_refl|]. intros v w' H. inversion H. exact Hg.
  - split; assumption.
Qed.

Lemma evaluateDiet_advances (cattleInfo : CattleInfo)
  (feedEvaluation : list FeedEvaluationItem.t)
  (countryId currency userId : option string) (w : World) :
  advances w (snd (evaluateDiet E cattleInfo feedEvaluation countryId currency userId w)).
Proof.
  destruct (given (apiKey (this w))) eqn:Hk.
  - rewrite evaluateDiet_apiKey_cases by exact Hk.
    destruct (resolvedCountry_advances countryId
                (map FeedEvaluationItem.feed_id feedEvaluation) w) as [Ha Ht].
    destruct (resolvedCountry E countryId _ w) as [[country|e] w1];
      simpl in Ha; [|exact Ha].
    rewrite exchange_snd. eapply advances_trans; [exact Ha|].
    apply advances_logged. unfold permitted, names_country. simpl.
    split; [reflexivity|]. split; [now apply (Ht country w1)|].
    now apply js_or_truthy.
  - rewrite evaluateDiet_emailPin_cases by exact Hk.
    pose proof (authenticate_advances w Hk) as Ha1.
    destruct (authenticate E w) as [[uid|e] w1]; simpl in Ha1; [|exact Ha1].
    destruct (argumentOr_advances countryId (getCountryId E) w1
                (getCountryId_advances w1)
                (fun v w' H => proj1 (getCountryId_returns_truthy w1 w' v H)))
      as [Ha2 Ht2].
    destruct (argumentOr countryId (getCountryId E) w1) as [[cid|e] w2];
      simpl in Ha2; [|exact (advances_trans _ _ _ Ha1 Ha2)].
    destruct (argumentOr_advances currency (getCurrency E) w2
                (getCurrency_advances w2)
                (fun v w' H => getCurrency_returns_truthy w2 w' v H))
      as [Ha3 Ht3].
    destruct (argumentOr currency (getCurrency E) w2) as [[cur|e] w3];
      simpl in Ha3;
      [|exact (advances_trans _ _ _ Ha1 (advances_trans _ _ _ Ha2 Ha3))].
    rewrite exchange_snd.
    apply (advances_trans _ _ _ Ha1), (advances_trans _ _ _ Ha2),
      (advances_trans _ _ _ Ha3).
    apply advances_logged. unfold permitted, names_country. simpl.
    split; [reflexivity|]. split; [now apply (Ht2 cid w2)|now apply (Ht3 cur w3)].
Qed.

Lemma getDietRecommendation_advances (cattleInfo : CattleInfo)
  (feedSelection : list FeedWithPrice.t)
  (countryId userId : option string) (w : World) :
  advances w (snd (getDietRecommendation E cattleInfo feedSelection countryId userId w)).
Proof.
  destruct (given (apiKey (this w))) eqn:Hk.
  - rewrite getDietRecommendation_apiKey_cases by exact Hk.
    destruct (resolvedCountry_advances countryId
                (map FeedWithPrice.feed_id feedSelection) w) as [Ha Ht].
    destruct (resolvedCountry E countryId _ w) as [[country|e] w1];
      simpl in Ha; [|exact Ha].
    rewrite exchange_snd. eapply advances_trans; [exact Ha|].
    apply advances_logged. unfold permitted, names_country. simpl.
    split; [reflexivity|]. now apply (Ht country w1).
  - rewrite getDietRecommendation_emailPin_cases by exact Hk.
    pose proof (authenticate_advances w Hk) as Ha1.
    destruct (authenticate E w) as [[uid|e] w1]; simpl in Ha1; [|exact Ha1].
    destruct (argumentOr_advances countryId (getCountryId E) w1
                (getCountryId_advances w1)
                (fun v w' H => proj1 (getCountryId_returns_truthy w1 w' v H)))
      as [Ha2 Ht2].
    destruct (argumentOr countryId (getCountryId E) w1) as [[cid|e] w2];
      simpl in Ha2; [|exact (advances_trans _ _ _ Ha1 Ha2)].
    rewrite exchange_snd.
    apply (advances_trans _ _ _ Ha1), (advances_trans _ _ _ Ha2).
    apply advances_logged. unfold permitted, names_country. simpl.
    split; [reflexivity|]. now apply (Ht2 cid w2).
Qed.

Lemma perform_advances (c : Call) (w : World) :
  advances w (snd (perform E c w)).
Proof.
  destruct c; simpl.
  - apply getUserId_advances.
  - apply getCountryId_advances.
  - apply getCurrency_advances.
  - rewrite getCountries_snd. apply advances_logged, plain_permitted; reflexivity.
  - rewrite getFeedById_snd. apply advances_logged, plain_permitted; reflexivity.
  - rewrite searchFeeds_snd. apply advances_logged, plain_permitted; reflexivity.
  - apply getDietRecommendation_advances.
  - apply evaluateDiet_advances.
Qed.

Lemma session_advances (cs : list Call) (w : World) :
  advances w (session E cs w).
Proof.
  revert w. induction cs as [|c cs IH]; intros w; simpl.
  - apply advances_refl.
  - eapply advances_trans; [apply perform_advances | apply IH].
Qed.

End Advancing.

(** X1. Whatever public methods are called, in whatever order and with
    whatever outcome, the base URL, the API key, the e-mail, the PIN and the
    organisation id of the client stay what the constructor made them; so
    the authentication mode never changes. *)
Theorem session_keeps_credentials (E : Env) (cs : list Call) (w : World) :
  sameCredentials (this w) (this (session E cs w))
  /\ mode (this (session E cs w)) = mode (this w).
Proof.
  destruct (session_advances E cs w) as (Hc & _).
  split; [exact Hc|].
  destruct Hc as (_ & Hk & He & Hp & _).
  unfold mode. now rewrite Hk, He, Hp.
Qed.

(** X2. On an ApiKey-mode client no sequence of public calls writes the
    session cache or sends a login request, and every request it sends
    carries the content type and [Authorization: Bearer <key>]. *)
Theorem apiKey_session (E : Env) (cs : list Call) (w : World) (key : string) :
  apiKey (this w) = Some key ->
  key <> "" ->
  this (session E cs w) = this w
  /\ exists new,
       calls (session E cs w) = (calls w ++ new)%list
       /\ Forall (fun r =>
                    is_login r = false
                    /\ headers r = [("Content-Type", "application/json");
                                    ("Authorization", "Bearer " ++ key)]) new.
Proof.
  intros Hkey Hne.
  assert (Hk : given (apiKey (this w)) = true).
  { rewrite Hkey. simpl. destruct key; [congruence|reflexivity]. }
  destruct (session_advances E cs w) as (_ & Hs & new & Hcalls & Hp).
  split; [apply Hs; left; exact Hk|].
  exists new. split; [exact Hcalls|].
  eapply Forall_impl; [|exact Hp].
  intros r. unfold permitted. destruct (is_login r).
  - intros (Hno & _). congruence.
  - intros [Hh _]. split; [reflexivity|].
    rewrite Hh. unfold getAuthHeaders. now rewrite Hk, Hkey.
Qed.

Lemma apiKey_session_witness :
  this (session dietServer sampleSession (start keyClient)) = keyClient
  /\ exists new,
       calls (session dietServer sampleSession (start keyClient)) = new
       /\ length new = 5%nat
       /\ Forall (fun r =>
                    is_login r = false
                    /\ headers r = [("Content-Type", "application/json");
                                    ("Authorization", "Bearer key-1")]) new.
Proof.
  destruct (apiKey_session dietServer sampleSession (start keyClient) "key-1"
              eq_refl) as (Hthis & new & Hcalls & Hall).
  - discriminate.
  - split; [exact Hthis|]. exists new. split; [exact Hcalls|].
    split; [|exact Hall]. simpl in Hcalls. rewrite <- Hcalls. reflexivity.
Defined.

(** X3. On an EmailPin-mode client no request of any sequence of public
    calls carries an [Authorization] header: the headers are the content
    type alone.  The e-mail and the PIN travel in one request only, the POST
    to [/auth/login]. *)
Theorem emailPin_session (E : Env) (cs : list Call) (w : World) :
  mode (this w) = Some EmailPin ->
  exists new,
    calls (session E cs w) = (calls w ++ new)%list
    /\ Forall (fun r =>
                 headers r = [("Content-Type", "application/json")]
                 /\ (is_login r = true -> r = loginRequest (this w))) new.
Proof.
  intros Hm. apply mode_EmailPin in Hm. destruct Hm as (Hk & _ & _).
  destruct (session_advances E cs w) as (_ & _ & new & Hcalls & Hp).
  exists new. split; [exact Hcalls|].
  eapply Forall_impl; [|exact Hp].
  intros r. unfold permitted. destruct (is_login r).
  - intros (_ & _ & Hr). split; [now rewrite Hr|]. intros _. exact Hr.
  - intros [Hh _]. split; [|discriminate].
    rewrite Hh. unfold getAuthHeaders. now rewrite Hk.
Qed.

Lemma emailPin_session_witness :
  exists new,
    calls (session dietServer sampleSession (start pinClient)) = new
    /\ map url new = ["http://api/auth/login";
                      "http://api/diet-evaluation-working/";
                      "http://api/feeds/";
                      "http://api/diet-recommendation-working/"]
    /\ Forall (fun r =>
                 headers r = [("Content-Type", "application/json")]
                 /\ (is_login r = true -> r = loginRequest pinClient)) new.
Proof.
  destruct (emailPin_session dietServer sampleSession (start pinClient) eq_refl)
    as (new & Hcalls & Hall).
  exists new. split; [exact Hcalls|]. split; [|exact Hall].
  simpl in Hcalls. rewrite <- Hcalls. reflexivity.
Defined.

(** X4. Once a user id is cached, no sequence of public calls changes the
    client object again (the cache is never rewritten or invalidated) and
    none sends another login request. *)
Theorem cached_identity_is_final (E : Env) (cs : list Call) (w : World) :
  truthy (cachedUserId (this w)) = true ->
  this (session E cs w) = this w
  /\ exists new,
       calls (session E cs w) = (calls w ++ new)%list
       /\ Forall (fun r => is_login r = false) new.
Proof.
  intros Hc.
  destruct (session_advances E cs w) as (_ & Hs & new & Hcalls & Hp).
  split; [apply Hs; right; exact Hc|].
  exists new. split; [exact Hcalls|].
  eapply Forall_impl; [|exact Hp].
  intros r. unfold permitted. destruct (is_login r); [|reflexivity].
  intros (_ & Hmiss & _). congruence.
Qed.

Lemma cached_identity_is_final_witness :
  let w1 := snd (authenticate dietServer (start pinClient)) in
  cachedUserId (this w1) = JStr "u-1"
  /\ this (session dietServer sampleSession w1) = this w1
  /\ exists new,
       calls (session dietServer sampleSession w1) = (calls w1 ++ new)%list
       /\ Forall (fun r => is_login r = false) new.
Proof.
  intros w1. split; [reflexivity|].
  apply (cached_identity_is_final dietServer sampleSession w1). reflexivity.
Defined.

(** X5. Every diet request that any sequence of public calls dispatches, in
    either mode, names a non-empty country, and every evaluation request a
    non-empty currency as well. *)
Theorem diet_requests_name_country (E : Env) (cs : list Call) (w : World) :
  exists new,
    calls (session E cs w) = (calls w ++ new)%list
    /\ Forall names_country new.
Proof.
  destruct (session_advances E cs w) as (_ & _ & new & Hcalls & Hp).
  exists new. split; [exact Hcalls|].
  eapply Forall_impl; [|exact Hp].
  intros r. unfold permitted, names_country, is_login.
  destruct (body r) as [[e p|b|b]|]; try (intros [_ H]; exact H); auto.
Qed.

(** ** More on the two diet operations *)

(** X6. [getDietRecommendation] on an ApiKey-mode client, with at least one
    feed and no country argument: the first feed is looked up; a detected
    country is followed by exactly one more call, the POST to the
    recommendation endpoint with that country and the simulation id
    ["sim-"] plus the clock's milliseconds; no detected country makes the
    run throw the missing-country error with the lookup as only call. *)
Theorem getDietRecommendation_detects_country (E : Env) (w : World)
  (cattleInfo : CattleInfo) (item : FeedWithPrice.t)
  (items : list FeedWithPrice.t) (countryId userId : option string) :
  mode (this w) = Some ApiKey ->
  given countryId = false ->
  let feeds := item :: items in
  let probe := feedRequest (this w) (FeedWithPrice.feed_id item) in
  let detection := detectCountryFromFeeds E (map FeedWithPrice.feed_id feeds) w in
  let run := getDietRecommendation E cattleInfo feeds countryId userId w in
  exists detected,
    fst detection = Returned detected
    /\ calls (snd detection) = (calls w ++ [probe])%list
    /\ (truthy detected = true ->
        exists post b,
          calls (snd run) = (calls w ++ [probe; post])%list
          /\ post = recommendationRequest (this w)
                      (clock E (calls w ++ [probe])%list)
                      (js_or (arg userId) serviceAccount) detected cattleInfo feeds
          /\ method post = POST
          /\ url post = baseUrl (this w) ++ "/diet-recommendation-working/"
          /\ body post = Some (RecommendationBody b)
          /\ DietRecommendationRequest.country_id b = detected
          /\ DietRecommendationRequest.simulation_id b
             = "sim-" ++ string_of_Z (clock E (calls w ++ [probe])%list))
    /\ (truthy detected = false ->
        run = (Threw MissingCountryContext, snd detection)
        /\ calls (snd run) = (calls w ++ [probe])%list).
Proof.
  intros Hm Hc feeds probe detection run.
  apply mode_ApiKey in Hm.
  destruct (detect_total E w (map FeedWithPrice.feed_id feeds))
    as (detected & w' & Hrun & Hthis & Hcalls).
  simpl in Hrun, Hcalls. fold probe in Hcalls.
  exists detected. subst detection. simpl map. rewrite Hrun. simpl fst. simpl snd.
  split; [reflexivity|]. split; [exact Hcalls|].
  subst run. rewrite (getDietRecommendation_apiKey_cases E w _ _ _ _ Hm).
  unfold resolvedCountry. rewrite Hc. simpl map. rewrite Hrun.
  split.
  - intros Ht. rewrite Ht. eexists. eexists.
    rewrite exchange_calls, Hcalls, Hthis, <- app_assoc. simpl app.
    split; [reflexivity|]. repeat (split; [reflexivity|]). reflexivity.
  - intros Ht. rewrite Ht. split; [reflexivity|exact Hcalls].
Qed.

Lemma getDietRecommendation_detects_country_witness :
  calls (snd (getDietRecommendation dietServer sampleCattle sampleSelection
                None None (start keyClient)))
  = [feedRequest keyClient "f1";
     recommendationRequest keyClient 1700000000001 serviceAccount (JStr "c-et")
       sampleCattle sampleSelection].
Proof.
  destruct (getDietRecommendation_detects_country dietServer (start keyClient)
              sampleCattle
              {| FeedWithPrice.feed_id := "f1"; FeedWithPrice.price_per_kg := 25 # 10 |}
              [] None None eq_refl eq_refl)
    as (detected & Hd & _ & Hyes & _).
  injection Hd as Hd. subst detected.
  destruct (Hyes eq_refl) as (post & b & Hcalls & Hpost & _).
  rewrite Hpost in Hcalls. exact Hcalls.
Defined.

(** X7. On an ApiKey-mode client an explicit, non-empty country argument is
    used as it is: both diet operations make exactly one call, the POST
    carrying that country, and no feed is looked up, whatever the feed list;
    the cache and the warnings are untouched. *)
Theorem explicit_country_skips_detection (E : Env) (w : World)
  (cattleInfo : CattleInfo) (feedEvaluation : list FeedEvaluationItem.t)
  (feedSelection : list FeedWithPrice.t) (country : string)
  (currency userId : option string) :
  mode (this w) = Some ApiKey ->
  country <> "" ->
  snd (evaluateDiet E cattleInfo feedEvaluation (Some country) currency userId w)
  = logged (evaluationRequest (this w) (clock E (calls w))
              (js_or (arg userId) serviceAccount) (JStr country)
              (js_or (arg currency) (JStr "USD")) cattleInfo feedEvaluation) w
  /\ snd (getDietRecommendation E cattleInfo feedSelection (Some country) userId w)
     = logged (recommendationRequest (this w) (clock E (calls w))
                 (js_or (arg userId) serviceAccount) (JStr country)
                 cattleInfo feedSelection) w.
Proof.
  intros Hm Hne. apply mode_ApiKey in Hm.
  assert (Hg : given (Some country) = true).
  { simpl. destruct country; [congruence|reflexivity]. }
  split.
  - rewrite evaluateDiet_apiKey_cases by exact Hm.
    unfold resolvedCountry. rewrite Hg. apply exchange_snd.
  - rewrite getDietRecommendation_apiKey_cases by exact Hm.
    unfold resolvedCountry. rewrite Hg. apply exchange_snd.
Qed.

Lemma explicit_country_skips_detection_witness :
  calls (snd (evaluateDiet dietServer sampleCattle sampleRation (Some "c-ke")
                (Some "KES") None (start keyClient)))
  = [evaluationRequest keyClient 1700000000000 serviceAccount (JStr "c-ke")
       (JStr "KES") sampleCattle sampleRation]
  /\ calls (snd (getDietRecommendation dietServer sampleCattle sampleSelection
                   (Some "c-ke") None (start keyClient)))
     = [recommendationRequest keyClient 1700000000000 serviceAccount (JStr "c-ke")
          sampleCattle sampleSelection].
Proof.
  destruct (explicit_country_skips_detection dietServer (start keyClient)
              sampleCattle sampleRation sampleSelection "c-ke" (Some "KES") None
              eq_refl) as [H1 H2].
  - discriminate.
  - split.
    + rewrite H1. reflexivity.
    + pose proof (explicit_country_skips_detection dietServer (start keyClient)
                    sampleCattle sampleRation sampleSelection "c-ke" None None
                    eq_refl) as H3.
      destruct H3 as [_ H3]; [discriminate|]. rewrite H3. reflexivity.
Defined.

(** X8. With an empty feed list and no country argument, an ApiKey-mode
    client refuses both diet operations with the missing-country error
    before any call: the state is exactly what it was. *)
Theorem no_feeds_no_country (E : Env) (w : World) (cattleInfo : CattleInfo)
  (countryId currency userId : option string) :
  mode (this w) = Some ApiKey ->
  given countryId = false ->
  evaluateDiet E cattleInfo [] countryId currency userId w
  = (Threw MissingCountryContext, w)
  /\ getDietRecommendation E cattleInfo [] countryId userId w
     = (Threw MissingCountryContext, w).
Proof.
  intros Hm Hc. apply mode_ApiKey in Hm. split.
  - rewrite evaluateDiet_apiKey_cases by exact Hm.
    unfold resolvedCountry. rewrite Hc. reflexivity.
  - rewrite getDietRecommendation_apiKey_cases by exact Hm.
    unfold resolvedCountry. rewrite Hc. reflexivity.
Qed.

Lemma no_feeds_no_country_witness :
  evaluateDiet dietServer sampleCattle [] None None None (start keyClient)
  = (Threw MissingCountryContext, start keyClient)
  /\ getDietRecommendation dietServer sampleCattle [] (Some "") None (start keyClient)
     = (Threw MissingCountryContext, start keyClient).
Proof.
  split.
  - apply (proj1 (no_feeds_no_country dietServer (start keyClient) sampleCattle
                    None None None eq_refl eq_refl)).
  - apply (proj2 (no_feeds_no_country dietServer (start keyClient) sampleCattle
                    (Some "") None None eq_refl eq_refl)).
Defined.

(** ** Diet operations on an EmailPin-mode client *)

Section Identified.

Variable E : Env.

Lemma accessors_when_cached (w : World) :
  given (apiKey (this w)) = false ->
  truthy (cachedUserId (this w)) = true ->
  getCountryId E w
  = ((if truthy (cachedCountryId (this w))
      then Returned (cachedCountryId (this w))
      else Threw (JsError "Country ID not available")), w)
  /\ getCurrency E w = (Returned (js_or (cachedCurrency (this w)) (JStr "USD")), w).
Proof.
  intros Hk Hc. unfold getCountryId, getCurrency. run. rewrite Hk. run.
  rewrite (authenticate_hit E w Hc). simpl.
  destruct (truthy (cachedCountryId (this w))); split; reflexivity.
Qed.

Lemma argumentOr_js_or (x : option string) (accessor : Eff JSValue)
  (w : World) (v : JSValue) :
  accessor w = ((if truthy v then Returned v else Threw (JsError "Country ID not available")), w) ->
  argumentOr x accessor w
  = ((if truthy (js_or (arg x) v) then Returned (js_or (arg x) v)
      else Threw (JsError "Country ID not available")), w).
Proof.
  intros Ha. unfold argumentOr, js_or, given.
  destruct (truthy (arg x)) eqn:Hx; [now rewrite Hx|exact Ha].
Qed.

(** Both operations once [authenticate] has answered with a cached id. *)
Lemma diet_when_identified (w w1 : World) (uid : JSValue)
  (cattleInfo : CattleInfo) (feedEvaluation : list FeedEvaluationItem.t)
  (feedSelection : list FeedWithPrice.t) (countryId currency userId : option string) :
  given (apiKey (this w)) = false ->
  authenticate E w = (Returned uid, w1) ->
  given (apiKey (this w1)) = false ->
  truthy (cachedUserId (this w1)) = true ->
  let country := js_or (arg countryId) (cachedCountryId (this w1)) in
  let money := js_or (arg currency) (js_or (cachedCurrency (this w1)) (JStr "USD")) in
  evaluateDiet E cattleInfo feedEvaluation countryId currency userId w
  = (if truthy country
     then exchange E "Diet evaluation failed: "
            (evaluationRequest (this w1) (clock E (calls w1)) uid country money
               cattleInfo feedEvaluation) w1
     else (Threw (JsError "Country ID not available"), w1))
  /\ getDietRecommendation E cattleInfo feedSelection countryId userId w
     = (if truthy country
        then exchange E "Diet recommendation failed: "
               (recommendationRequest (this w1) (clock E (calls w1)) uid country
                  cattleInfo feedSelection) w1
        else (Threw (JsError "Country ID not available"), w1)).
Proof.
  intros Hk Ha Hk1 Hc1 country money.
  destruct (accessors_when_cached w1 Hk1 Hc1) as [Hcountry Hcurrency].
  pose proof (argumentOr_js_or countryId (getCountryId E) w1 _ Hcountry) as Hc.
  fold country in Hc.
  split.
  - rewrite evaluateDiet_emailPin_cases by exact Hk. rewrite Ha, Hc.
    destruct (truthy country); [|reflexivity].
    unfold argumentOr at 1. rewrite Hcurrency.
    assert (Hmoney : money = if given currency then arg currency
                             else js_or (cachedCurrency (this w1)) (JStr "USD"))
      by reflexivity.
    rewrite Hmoney. destruct (given currency); reflexivity.
  - rewrite getDietRecommendation_emailPin_cases by exact Hk. rewrite Ha, Hc.
    destruct (truthy country); reflexivity.
Qed.

End Identified.

(** X9. On an EmailPin-mode client with nothing cached, one login serves a
    whole diet operation: when the login answers with a user that has a
    non-empty id, the run makes the login call and then, if a country is
    given or the user has one, exactly one more call, the POST that carries
    the user's id, the country (argument first, else the user's) and, for
    an evaluation, the currency (argument first, else the cached one).  With
    neither a country argument nor a user country the run throws
    "Country ID not available" after the login, and nothing is dispatched. *)
Theorem emailPin_diet_logs_in_once (E : Env) (w : World) (resp : Response)
  (data success : JSValue) (cattleInfo : CattleInfo)
  (feedEvaluation : list FeedEvaluationItem.t)
  (feedSelection : list FeedWithPrice.t) (countryId currency userId : option string) :
  mode (this w) = Some EmailPin ->
  truthy (cachedUserId (this w)) = false ->
  backend E (calls w) (loginRequest (this w)) = Resolved resp ->
  ok resp = true ->
  json resp = Returned data ->
  get data "success" = Returned success ->
  truthy success = true ->
  truthy (field data "user") = true ->
  truthy (field (field data "user") "id") = true ->
  let user := field data "user" in
  let w1 := {| this := remember user (this w);
               calls := (calls w ++ [loginRequest (this w)])%list;
               warnings := warnings w |} in
  let country := js_or (arg countryId) (field user "country_id") in
  let money := js_or (arg currency) (cachedCurrency (this w1)) in
  (truthy country = true ->
   snd (evaluateDiet E cattleInfo feedEvaluation countryId currency userId w)
   = logged (evaluationRequest (this w1) (clock E (calls w1)) (field user "id")
               country money cattleInfo feedEvaluation) w1
   /\ snd (getDietRecommendation E cattleInfo feedSelection countryId userId w)
      = logged (recommendationRequest (this w1) (clock E (calls w1))
                  (field user "id") country cattleInfo feedSelection) w1)
  /\ (truthy country = false ->
      evaluateDiet E cattleInfo feedEvaluation countryId currency userId w
      = (Threw (JsError "Country ID not available"), w1)
      /\ getDietRecommendation E cattleInfo feedSelection countryId userId w
         = (Threw (JsError "Country ID not available"), w1)).
Proof.
  intros Hm Hmiss Hb Hok Hj Hs Hts Htu Hid user w1 country money.
  apply mode_EmailPin in Hm. destruct Hm as (Hk & He & Hp).
  assert (Ha : authenticate E w = (Returned (field user "id"), w1)).
  { rewrite authenticate_cases. simpl.
    rewrite Hmiss, He, Hp, Hb, Hok, Hj, Hs, Hts, Htu. reflexivity. }
  assert (Hmoney : js_or (cachedCurrency (this w1)) (JStr "USD")
                   = cachedCurrency (this w1)).
  { simpl. unfold js_or.
    destruct (truthy (field_opt (field user "country") "currency")) eqn:Hcur;
      simpl; now rewrite ?Hcur. }
  destruct (diet_when_identified E w w1 (field user "id") cattleInfo
              feedEvaluation feedSelection countryId currency userId
              Hk Ha Hk Hid) as [Hev Hrec].
  rewrite Hmoney in Hev. simpl cachedCountryId in Hev, Hrec.
  fold country in Hev, Hrec. fold money in Hev.
  rewrite Hev, Hrec.
  split; intros Hc; rewrite Hc.
  - now rewrite !exchange_snd.
  - split; reflexivity.
Qed.

Lemma emailPin_diet_logs_in_once_witness :
  map url (calls (snd (evaluateDiet dietServer sampleCattle sampleRation None None
                         (Some "someone-else") (start pinClient))))
  = ["http://api/auth/login"; "http://api/diet-evaluation-working/"]
  /\ map url (calls (snd (getDietRecommendation dietServer sampleCattle
                            sampleSelection (Some "c-ke") None (start pinClient))))
     = ["http://api/auth/login"; "http://api/diet-recommendation-working/"].
Proof.
  split.
  - destruct (emailPin_diet_logs_in_once dietServer (start pinClient)
                (respond (loginOf "u-1")) (loginOf "u-1") (JBool true)
                sampleCattle sampleRation sampleSelection None None
                (Some "someone-else")
                eq_refl eq_refl eq_refl eq_refl eq_refl eq_refl eq_refl eq_refl
                eq_refl) as [Hyes _].
    destruct (Hyes eq_refl) as [H _]. rewrite H. reflexivity.
  - destruct (emailPin_diet_logs_in_once dietServer (start pinClient)
                (respond (loginOf "u-1")) (loginOf "u-1") (JBool true)
                sampleCattle sampleRation sampleSelection (Some "c-ke") None None
                eq_refl eq_refl eq_refl eq_refl eq_refl eq_refl eq_refl eq_refl
                eq_refl) as [Hyes _].
    destruct (Hyes eq_refl) as [_ H]. rewrite H. reflexivity.
Defined.

(** X10. With a user id already cached, a client without API key makes no
    login call: each diet operation is the single POST, carrying the cached
    user id, the country argument or else the cached country, and the
    currency argument or else the cached currency or else ["USD"]; without
    any country it throws "Country ID not available" with no call at all. *)
Theorem cached_identity_is_reused (E : Env) (w : World) (cattleInfo : CattleInfo)
  (feedEvaluation : list FeedEvaluationItem.t)
  (feedSelection : list FeedWithPrice.t) (countryId currency userId : option string) :
  given (apiKey (this w)) = false ->
  truthy (cachedUserId (this w)) = true ->
  let country := js_or (arg countryId) (cachedCountryId (this w)) in
  let money := js_or (arg currency) (js_or (cachedCurrency (this w)) (JStr "USD")) in
  (truthy country = true ->
   snd (evaluateDiet E cattleInfo feedEvaluation countryId currency userId w)
   = logged (evaluationRequest (this w) (clock E (calls w)) (cachedUserId (this w))
               country money cattleInfo feedEvaluation) w
   /\ snd (getDietRecommendation E cattleInfo feedSelection countryId userId w)
      = logged (recommendationRequest (this w) (clock E (calls w))
                  (cachedUserId (this w)) country cattleInfo feedSelection) w)
  /\ (truthy country = false ->
      evaluateDiet E cattleInfo feedEvaluation countryId currency userId w
      = (Threw (JsError "Country ID not available"), w)
      /\ getDietRecommendation E cattleInfo feedSelection countryId userId w
         = (Threw (JsError "Country ID not available"), w)).
Proof.
  intros Hk Hc country money.
  destruct (diet_when_identified E w w (cachedUserId (this w)) cattleInfo
              feedEvaluation feedSelection countryId currency userId
              Hk (authenticate_hit E w Hc) Hk Hc) as [Hev Hrec].
  fold country in Hev, Hrec. fold money in Hev. rewrite Hev, Hrec.
  split; intros Ht; rewrite Ht.
  - now rewrite !exchange_snd.
  - split; reflexivity.
Qed.

Lemma cached_identity_is_reused_witness :
  let w1 := snd (authenticate dietServer (start pinClient)) in
  calls (snd (evaluateDiet dietServer sampleCattle sampleRation None None None w1))
  = [loginRequest pinClient;
     evaluationRequest (this w1) 1700000000001 (JStr "u-1") (JStr "c-et")
       (JStr "USD") sampleCattle sampleRation].
Proof.
  intros w1.
  destruct (cached_identity_is_reused dietServer w1 sampleCattle sampleRation
              sampleSelection None None None eq_refl eq_refl) as [Hyes _].
  destruct (Hyes eq_refl) as [H _]. rewrite H. reflexivity.
Defined.

(** ** Error reporting *)

Lemma append_assoc_r (a b c : string) : a ++ (b ++ c) = (a ++ b) ++ c.
Proof. induction a as [|x a IH]; simpl; [reflexivity | now rewrite IH]. Qed.

(** X11. Every error [authenticate] throws is an [Error] with one of two
    kinds of message: "Email and PIN required for authentication", thrown
    before any call when the e-mail or the PIN is missing, or a message
    that starts with "Failed to authenticate: ", thrown after exactly one
    login call.  A transport failure that is not an [Error] is reported as
    "Unknown error", and a non-success status with its code and text. *)
Theorem authenticate_error_messages (E : Env) (w : World) :
  (forall e w',
     authenticate E w = (Threw e, w') ->
     (e = JsError "Email and PIN required for authentication"
      /\ w' = w
      /\ (given (userEmail (this w)) = false \/ given (userPin (this w)) = false))
     \/ (exists m, e = JsError ("Failed to authenticate: " ++ m)
                   /\ w' = logged (loginRequest (this w)) w))
  /\ (mode (this w) = Some EmailPin ->
      truthy (cachedUserId (this w)) = false ->
      (forall v,
         backend E (calls w) (loginRequest (this w)) = Rejected (NonError v) ->
         fst (authenticate E w)
         = Threw (JsError "Failed to authenticate: Unknown error"))
      /\ (forall m,
            backend E (calls w) (loginRequest (this w)) = Rejected (JsError m) ->
            fst (authenticate E w) = Threw (JsError ("Failed to authenticate: " ++ m)))
      /\ (forall resp,
            backend E (calls w) (loginRequest (this w)) = Resolved resp ->
            ok resp = false ->
            fst (authenticate E w)
            = Threw (JsError ("Failed to authenticate: Authentication failed: "
                              ++ string_of_Z (status resp) ++ " "
                              ++ statusText resp)))).
Proof.
  split.
  - intros e w'. rewrite authenticate_cases. simpl.
    destruct (truthy (cachedUserId (this w))); [discriminate|].
    destruct (given (userEmail (this w))) eqn:He; simpl.
    2:{ intros H; inversion H; subst; left; auto. }
    destruct (given (userPin (this w))) eqn:Hp; simpl.
    2:{ intros H; inversion H; subst; left; auto. }
    destruct (backend E (calls w) (loginRequest (this w))) as [resp|e0].
    2:{ intros H; inversion H; subst; right; eauto. }
    destruct (ok resp).
    2:{ intros H; inversion H; subst; right; eauto. }
    destruct (json resp) as [data|e0].
    2:{ intros H; inversion H; subst; right; eauto. }
    destruct (get data "success") as [success|e0].
    2:{ intros H; inversion H; subst; right; eauto. }
    destruct (truthy success).
    2:{ intros H; inversion H; subst; right; eauto. }
    destruct (truthy (field data "user")); [discriminate|].
    intros H; inversion H; subst; right; eauto.
  - intros Hm Hmiss. apply mode_EmailPin in Hm. destruct Hm as (_ & He & Hp).
    rewrite authenticate_cases. simpl. rewrite Hmiss, He, Hp. simpl.
    split; [|split].
    + intros v Hb. now rewrite Hb.
    + intros m Hb. now rewrite Hb.
    + intros resp Hb Hok. now rewrite Hb, Hok.
Qed.

Lemma authenticate_error_messages_witness :
  fst (authenticate refusingServer (start pinClient))
  = Threw (JsError "Failed to authenticate: Authentication failed: 401 Unauthorized")
  /\ fst (authenticate loginServer (start keyClient))
     = Threw (JsError "Email and PIN required for authentication").
Proof.
  split.
  - destruct (proj2 (authenticate_error_messages refusingServer (start pinClient))
                eq_refl eq_refl) as (_ & _ & H).
    apply (H (refuse 401 "Unauthorized")); reflexivity.
  - destruct (proj1 (authenticate_error_messages loginServer (start keyClient))
                (JsError "Email and PIN required for authentication")
                (start keyClient) eq_refl) as [(_ & _ & _) | (m & Hm & _)].
    + reflexivity.
    + discriminate Hm.
Defined.

(** X12. The three read operations make one call and report failures
    without wrapping: a transport error, and the error of a body that is not
    JSON, are thrown as they are; a non-success status gives
    "Failed to get countries: <status>" and "Failed to search feeds:
    <status>". *)
Theorem read_operations_report_failures (E : Env) (w : World)
  (feedId : string) (params : SearchParams.t) :
  let countries := {| method := GET; url := baseUrl (this w) ++ "/auth/countries";
                      headers := getAuthHeaders (this w); body := None |} in
  (forall e,
     (backend E (calls w) countries = Rejected e ->
      getCountries E w = (Threw e, logged countries w))
     /\ (backend E (calls w) (feedRequest (this w) feedId) = Rejected e ->
         getFeedById E feedId w = (Threw e, logged (feedRequest (this w) feedId) w))
     /\ (backend E (calls w) (searchRequest E (this w) params) = Rejected e ->
         searchFeeds E params w
         = (Threw e, logged (searchRequest E (this w) params) w)))
  /\ (forall resp e,
        ok resp = true -> json resp = Threw e ->
        (backend E (calls w) countries = Resolved resp ->
         getCountries E w = (Threw e, logged countries w))
        /\ (backend E (calls w) (feedRequest (this w) feedId) = Resolved resp ->
            getFeedById E feedId w
            = (Threw e, logged (feedRequest (this w) feedId) w))
        /\ (backend E (calls w) (searchRequest E (this w) params) = Resolved resp ->
            searchFeeds E params w
            = (Threw e, logged (searchRequest E (this w) params) w)))
  /\ (forall resp,
        ok resp = false ->
        (backend E (calls w) countries = Resolved resp ->
         getCountries E w
         = (Threw (JsError ("Failed to get countries: " ++ string_of_Z (status resp))),
            logged countries w))
        /\ (backend E (calls w) (searchRequest E (this w) params) = Resolved resp ->
            searchFeeds E params w
            = (Threw (JsError ("Failed to search feeds: "
                               ++ string_of_Z (status resp))),
               logged (searchRequest E (this w) params) w))).
Proof.
  intros countries. subst countries.
  split; [|split].
  - intros e. split; [|split]; intros Hb.
    + unfold getCountries. run. now rewrite Hb.
    + unfold getFeedById. run. now rewrite Hb.
    + unfold searchFeeds. run. now rewrite Hb.
  - intros resp e Hok Hj. split; [|split]; intros Hb.
    + unfold getCountries. run. now rewrite Hb, Hok, Hj.
    + unfold getFeedById. run. now rewrite Hb, Hok, Hj.
    + unfold searchFeeds. run. now rewrite Hb, Hok, Hj.
  - intros resp Hok. split; intros Hb.
    + unfold getCountries. run. now rewrite Hb, Hok.
    + unfold searchFeeds. run. now rewrite Hb, Hok.
Qed.

Lemma read_operations_report_failures_witness :
  getFeedById notFoundServer "f1" (start keyClient)
  = (Threw (JsError "request to http://api/feeds/f1 failed"),
     logged (feedRequest keyClient "f1") (start keyClient))
  /\ fst (getCountries refusingServer (start pinClient))
     = Threw (JsError "request to http://api/auth/countries failed").
Proof.
  destruct (read_operations_report_failures notFoundServer (start keyClient)
              "f1" noFilter) as (Hrej & _).
  destruct (Hrej (JsError "request to http://api/feeds/f1 failed"))
    as (_ & Hfeed & _).
  split; [apply Hfeed; reflexivity|].
  destruct (read_operations_report_failures refusingServer (start pinClient)
              "f1" noFilter) as (Hrej' & _).
  destruct (Hrej' (JsError "request to http://api/auth/countries failed"))
    as (Hcountries & _).
  rewrite Hcountries; reflexivity.
Defined.

(** X13. When the backend refuses a diet request, the error the operation
    throws carries the status code and the backend's own body text:
    "Diet evaluation failed: <status> - <text>" and "Diet recommendation
    failed: <status> - <text>".  (Stated for an ApiKey-mode client given an
    explicit country, where the POST is the only call.) *)
Theorem diet_failure_carries_backend_text (E : Env) (w : World)
  (cattleInfo : CattleInfo) (feedEvaluation : list FeedEvaluationItem.t)
  (feedSelection : list FeedWithPrice.t) (country : string)
  (currency userId : option string) (resp : Response) (errorText : string) :
  mode (this w) = Some ApiKey ->
  country <> "" ->
  ok resp = false ->
  text resp = Returned errorText ->
  let evaluation :=
    evaluationRequest (this w) (clock E (calls w))
      (js_or (arg userId) serviceAccount) (JStr country)
      (js_or (arg currency) (JStr "USD")) cattleInfo feedEvaluation in
  let recommendation :=
    recommendationRequest (this w) (clock E (calls w))
      (js_or (arg userId) serviceAccount) (JStr country) cattleInfo feedSelection in
  (backend E (calls w) evaluation = Resolved resp ->
   exists msg,
     evaluateDiet E cattleInfo feedEvaluation (Some country) currency userId w
     = (Threw (JsError msg), logged evaluation w)
     /\ msg = "Diet evaluation failed: " ++ string_of_Z (status resp)
              ++ " - " ++ errorText
     /\ contains (string_of_Z (status resp)) msg
     /\ contains errorText msg)
  /\ (backend E (calls w) recommendation = Resolved resp ->
      exists msg,
        getDietRecommendation E cattleInfo feedSelection (Some country) userId w
        = (Threw (JsError msg), logged recommendation w)
        /\ msg = "Diet recommendation failed: " ++ string_of_Z (status resp)
                 ++ " - " ++ errorText
        /\ contains (string_of_Z (status resp)) msg
        /\ contains errorText msg).
Proof.
  intros Hm Hne Hok Ht evaluation recommendation.
  subst evaluation recommendation.
  apply mode_ApiKey in Hm.
  assert (Hg : given (Some country) = true).
  { simpl. destruct country; [congruence|reflexivity]. }
  split; intros Hb; eexists; (split; [|split; [reflexivity|split]]).
  - rewrite evaluateDiet_apiKey_cases by exact Hm.
    unfold resolvedCountry. rewrite Hg. unfold exchange.
    change (arg (Some country)) with (JStr country).
    now rewrite Hb, Hok, Ht.
  - apply (contains_middle "Diet evaluation failed: " _ (" - " ++ errorText)).
  - rewrite (append_assoc_r "Diet evaluation failed: " (string_of_Z (status resp))).
    rewrite (append_assoc_r _ " - "). apply contains_suffix.
  - rewrite getDietRecommendation_apiKey_cases by exact Hm.
    unfold resolvedCountry. rewrite Hg. unfold exchange.
    change (arg (Some country)) with (JStr country).
    now rewrite Hb, Hok, Ht.
  - apply (contains_middle "Diet recommendation failed: " _ (" - " ++ errorText)).
  - rewrite (append_assoc_r "Diet recommendation failed: " (string_of_Z (status resp))).
    rewrite (append_assoc_r _ " - "). apply contains_suffix.
Qed.

Lemma diet_failure_carries_backend_text_witness :
  fst (evaluateDiet strictServer sampleCattle sampleRation (Some "c-et") None None
         (start keyClient))
  = Threw (JsError "Diet evaluation failed: 422 - feed list too short")
  /\ fst (getDietRecommendation strictServer sampleCattle sampleSelection
            (Some "c-et") None (start keyClient))
     = Threw (JsError "Diet recommendation failed: 422 - feed list too short").
Proof.
  assert (Hne : "c-et" <> "") by discriminate.
  destruct (diet_failure_carries_backend_text strictServer (start keyClient)
              sampleCattle sampleRation sampleSelection "c-et" None None
              (refuseWith 422 "Unprocessable Entity" "feed list too short")
              "feed list too short" eq_refl Hne eq_refl eq_refl) as [Hev Hrec].
  destruct (Hev eq_refl) as (m1 & H1 & Hm1 & _).
  destruct (Hrec eq_refl) as (m2 & H2 & Hm2 & _).
  rewrite H1, H2, Hm1, Hm2. split; reflexivity.
Defined.

(** ** The query of a feed search *)







(** ** The server's choice of client *)

Lemma given_nonempty (s : string) : s <> "" -> given (Some s) = true.
Proof. destruct s; [congruence | reflexivity]. Qed.

Lemma given_string (s : string) : given (Some s) = false <-> s = "".
Proof.
  destruct s; simpl; split; try reflexivity; try discriminate.
Qed.

Lemma prefix_empty (s : string) : String.prefix "" s = true.
Proof. destruct s; reflexivity. Qed.

Lemma trimEnd_idempotent (s : string) : trimEnd (trimEnd s) = trimEnd s.
Proof.
  induction s as [|a s IH]; [reflexivity|]. simpl.
  destruct (trimEnd s) as [|b t] eqn:Ht.
  - destruct (is_whitespace a) eqn:Ha; [reflexivity|]. simpl. now rewrite Ha.
  - simpl. simpl in IH.
    destruct (trimEnd t) as [|c u].
    + destruct (is_whitespace b); [discriminate|]. now rewrite IH.
    + now rewrite IH.
Qed.

Lemma trimEnd_keeps_head (a : ascii) (s : string) :
  is_whitespace a = false ->
  exists t, trimEnd (String a s) = String a t.
Proof.
  intros Ha. simpl. destruct (trimEnd s); [rewrite Ha|]; eauto.
Qed.

Lemma trimStart_result (s : string) :
  trimStart s = "" \/ exists a t, trimStart s = String a t /\ is_whitespace a = false.
Proof.
  induction s as [|a s IH]; [now left|]. simpl.
  destruct (is_whitespace a) eqn:Ha; [exact IH|]. right. eauto.
Qed.

(** A trimmed string has no white space at either end. *)
Lemma trim_is_trimmed (s : string) :
  trimStart (trim s) = trim s /\ trimEnd (trim s) = trim s.
Proof.
  unfold trim. split; [|apply trimEnd_idempotent].
  destruct (trimStart_result s) as [-> | (a & t & -> & Ha)]; [reflexivity|].
  destruct (trimEnd_keeps_head a t Ha) as [u ->]. simpl. now rewrite Ha.
Qed.

Lemma trim_fixed (s : string) :
  trimStart s = s -> trimEnd s = s -> trim s = s.
Proof. intros H1 H2. unfold trim. now rewrite H1, H2. Qed.

(** X15. The key the server extracts from an [Authorization] header never
    has white space at either end, with or without the "Bearer " prefix;
    and the header an ApiKey-mode client sends, [Bearer <key>], gives back
    that client's key when the key itself has no white space at its ends:
    the server then builds its client with the same key, whatever the
    environment holds, and prints nothing. *)
Theorem bearer_key_round_trip (process_env : ProcessEnv) :
  (forall req key,
     extractApiKeyFromRequest req = Some key ->
     trimStart key = key /\ trimEnd key = key)
  /\ (forall (c : Client) (key : string),
        apiKey c = Some key -> key <> "" ->
        trimStart key = key -> trimEnd key = key ->
        In ("Authorization", "Bearer " ++ key) (getAuthHeaders c)
        /\ extractApiKeyFromRequest {| authorization := Some ("Bearer " ++ key) |}
           = Some key
        /\ createFeedClient process_env
             {| authorization := Some ("Bearer " ++ key) |}
           = (constructor_value (FEED_API_BASE_URL process_env) key, [])).
Proof.
  split.
  - intros [[header|]] key; unfold extractApiKeyFromRequest; simpl authorization;
      [|discriminate].
    destruct (negb (given (Some header))); [discriminate|].
    destruct (startsWith header "Bearer "); intros H; inversion H;
      apply trim_is_trimmed.
  - intros c key Hk Hne Hs He.
    assert (Hg : given (Some key) = true) by now apply given_nonempty.
    assert (Hx : extractApiKeyFromRequest {| authorization := Some ("Bearer " ++ key) |}
                 = Some key).
    { unfold extractApiKeyFromRequest, startsWith. simpl.
      rewrite prefix_empty. now rewrite (trim_fixed key Hs He). }
    split; [|split; [exact Hx|]].
    + unfold getAuthHeaders. rewrite Hk, Hg. simpl. auto.
    + unfold createFeedClient. rewrite Hx, Hg. unfold constructor. rewrite Hg.
      reflexivity.
Qed.

Lemma bearer_key_round_trip_witness :
  extractApiKeyFromRequest {| authorization := Some "Bearer key-1" |} = Some "key-1"
  /\ createFeedClient fullEnv {| authorization := Some "Bearer key-1" |}
     = (Some keyClient, [])
  /\ extractApiKeyFromRequest {| authorization := Some "  key-1 " |} = Some "key-1".
Proof.
  assert (Hne : "key-1" <> "") by discriminate.
  destruct (proj2 (bearer_key_round_trip fullEnv) keyClient "key-1"
              eq_refl Hne eq_refl eq_refl) as (_ & Hx & Hc).
  split; [exact Hx|]. split; [exact Hc|].
  destruct (proj1 (bearer_key_round_trip fullEnv)
              {| authorization := Some "  key-1 " |} "key-1" eq_refl).
  reflexivity.
Defined.

Lemma createFeedClient_cases (process_env : ProcessEnv) (req : IncomingRequest) :
  createFeedClient process_env req
  = ((if given (extractApiKeyFromRequest req)
      then match extractApiKeyFromRequest req with
           | Some key => constructor_value (FEED_API_BASE_URL process_env) key
           | None => None
           end
      else if given (Some (FEED_API_KEY process_env))
      then constructor_value (FEED_API_BASE_URL process_env) (FEED_API_KEY process_env)
      else if given (Some (FEED_API_EMAIL process_env))
              && given (Some (FEED_API_PIN process_env))
      then constructor_pair (FEED_API_BASE_URL process_env)
             (FEED_API_EMAIL process_env) (FEED_API_PIN process_env)
      else None), []).
Proof.
  unfold createFeedClient, constructor.
  destruct (extractApiKeyFromRequest req) as [key|].
  - destruct (given (Some key)) eqn:Hk; [reflexivity|].
    destruct (given (Some (FEED_API_KEY process_env))) eqn:He; [reflexivity|].
    change (given None) with false.
    destruct (given (Some (FEED_API_EMAIL process_env))
              && given (Some (FEED_API_PIN process_env))) eqn:Hp;
      reflexivity.
  - change (given None) with false. cbv iota.
    destruct (given (Some (FEED_API_KEY process_env))) eqn:He; [reflexivity|].
    destruct (given (Some (FEED_API_EMAIL process_env))
              && given (Some (FEED_API_PIN process_env))) eqn:Hp;
      reflexivity.
Qed.

(** X16. [createFeedClient] never prints an error: every constructor call
    it makes succeeds.  A non-blank key in the request wins over anything
    in the environment; without one the environment's API key is used; without
    that, the environment's e-mail and PIN when both are set; in every other
    case, and only then, the result is null.  A client it returns is in one
    of the two modes, with an empty cache. *)
Theorem createFeedClient_priority (process_env : ProcessEnv) (req : IncomingRequest) :
  let base := FEED_API_BASE_URL process_env in
  let envKey := FEED_API_KEY process_env in
  let email := FEED_API_EMAIL process_env in
  let pin := FEED_API_PIN process_env in
  snd (createFeedClient process_env req) = []
  /\ (forall key,
        extractApiKeyFromRequest req = Some key -> key <> "" ->
        fst (createFeedClient process_env req) = constructor_value base key)
  /\ (given (extractApiKeyFromRequest req) = false -> envKey <> "" ->
      fst (createFeedClient process_env req) = constructor_value base envKey)
  /\ (given (extractApiKeyFromRequest req) = false -> envKey = "" ->
      email <> "" -> pin <> "" ->
      fst (createFeedClient process_env req) = constructor_pair base email pin)
  /\ (fst (createFeedClient process_env req) = None
      <-> given (extractApiKeyFromRequest req) = false
          /\ envKey = "" /\ (email = "" \/ pin = ""))
  /\ (forall c,
        fst (createFeedClient process_env req) = Some c ->
        mode c <> None
        /\ cachedUserId c = JNull /\ cachedCountryId c = JNull
        /\ cachedCurrency c = JNull).
Proof.
  intros base envKey email pin.
  rewrite createFeedClient_cases. fold base envKey email pin. simpl fst. simpl snd.
  split; [reflexivity|].
  split.
  { intros key Hx Hne. rewrite Hx, (given_nonempty key Hne). reflexivity. }
  split.
  { intros Hx Hne. rewrite Hx, (given_nonempty envKey Hne). reflexivity. }
  split.
  { intros Hx Hk He Hp.
    rewrite Hx, Hk, (given_nonempty email He), (given_nonempty pin Hp).
    reflexivity. }
  split.
  { destruct (given (extractApiKeyFromRequest req)) eqn:Hx.
    { destruct (extractApiKeyFromRequest req); [|discriminate Hx].
      split; [discriminate | intros (H & _); discriminate H]. }
    destruct (given (Some envKey)) eqn:Hk.
    { split; [discriminate|]. intros (_ & H & _).
      rewrite H in Hk. discriminate Hk. }
    apply given_string in Hk.
    destruct (given (Some email)) eqn:He; simpl.
    - destruct (given (Some pin)) eqn:Hp.
      + split; [discriminate|]. intros (_ & _ & [H | H]).
        * rewrite H in He. discriminate He.
        * rewrite H in Hp. discriminate Hp.
      + apply given_string in Hp. tauto.
    - apply given_string in He. tauto. }
  intros c.
  destruct (given (extractApiKeyFromRequest req)) eqn:Hx.
  { destruct (extractApiKeyFromRequest req) as [key|]; [|discriminate Hx].
    intros H. inversion H; subst c; clear H. simpl.
    split; [|auto]. unfold mode. simpl apiKey. rewrite Hx. discriminate. }
  destruct (given (Some envKey)) eqn:Hk.
  { intros H. inversion H; subst c; clear H. simpl.
    split; [|auto]. unfold mode. simpl apiKey. rewrite Hk. discriminate. }
  destruct (given (Some email) && given (Some pin)) eqn:Hp; [|discriminate].
  intros H. inversion H; subst c; clear H. simpl.
  split; [|auto]. unfold mode. simpl. rewrite Hp. discriminate.
Qed.

Lemma createFeedClient_priority_witness :
  createFeedClient fullEnv {| authorization := Some "Bearer    " |}
  = (constructor_value "http://api" "env-key", [])
  /\ fst (createFeedClient halfEnv {| authorization := Some "Bearer    " |}) = None
  /\ fst (createFeedClient fullEnv {| authorization := Some "tenant-key" |})
     = constructor_value "http://api" "tenant-key".
Proof.
  destruct (createFeedClient_priority fullEnv {| authorization := Some "Bearer    " |})
    as (Hquiet & _ & Henv & _).
  destruct (createFeedClient_priority halfEnv {| authorization := Some "Bearer    " |})
    as (_ & _ & _ & _ & Hnull & _).
  destruct (createFeedClient_priority fullEnv {| authorization := Some "tenant-key" |})
    as (_ & Hreq & _).
  split; [|split].
  - apply injective_projections; [|exact Hquiet].
    apply Henv; [reflexivity | discriminate].
  - apply Hnull. repeat split. right. reflexivity.
  - apply (Hreq "tenant-key"); [reflexivity | discriminate].
Defined.

(** X17. The server that keeps one client for the process: creating the
    client never throws; the client is null exactly when the start-up
    warning about missing credentials is printed; a configured API key gives
    an ApiKey-mode client even when an e-mail and a PIN are configured too,
    and without a key a configured e-mail and PIN give an EmailPin-mode
    client. *)
Theorem process_client_matches_warning (process_env : ProcessEnv) :
  let base := FEED_API_BASE_URL process_env in
  let envKey := FEED_API_KEY process_env in
  let email := FEED_API_EMAIL process_env in
  let pin := FEED_API_PIN process_env in
  exists client,
    feedClient process_env = Returned client
    /\ (client = None <-> warnsMissingCredentials process_env = true)
    /\ (envKey <> "" -> client = constructor_value base envKey)
    /\ (envKey = "" -> email <> "" -> pin <> "" ->
        client = constructor_pair base email pin).
Proof.
  intros base envKey email pin.
  unfold feedClient, warnsMissingCredentials, constructor, or_undefined.
  fold base envKey email pin.
  destruct (given (Some envKey)) eqn:Hk.
  - simpl orb. cbv iota. rewrite Hk. eexists. split; [reflexivity|].
    split; [split; discriminate|].
    split; [reflexivity|].
    intros H. rewrite H in Hk. discriminate Hk.
  - apply given_string in Hk. simpl orb. simpl negb. simpl andb.
    change (given None) with false.
    destruct (given (Some email)) eqn:He.
    + destruct (given (Some pin)) eqn:Hp; simpl.
      * rewrite He, Hp. simpl. eexists. split; [reflexivity|].
        split; [split; discriminate|].
        split; [congruence|]. reflexivity.
      * apply given_string in Hp. eexists. split; [reflexivity|].
        split; [split; reflexivity|]. split; congruence.
    + apply given_string in He. simpl. eexists. split; [reflexivity|].
      split; [split; reflexivity|]. split; congruence.
Qed.

Lemma process_client_matches_warning_witness :
  feedClient fullEnv = Returned (constructor_value "http://api" "env-key")
  /\ feedClient halfEnv = Returned None
  /\ warnsMissingCredentials halfEnv = true.
Proof.
  destruct (process_client_matches_warning fullEnv) as (c1 & H1 & _ & Hk & _).
  destruct (process_client_matches_warning halfEnv) as (c2 & H2 & Hn & _).
  split; [|split].
  - rewrite H1. f_equal. apply Hk. discriminate.
  - rewrite H2. f_equal. apply Hn. reflexivity.
  - reflexivity.
Defined.

(** ** The tools *)

Lemma report_of_Error (label m : string) (suggest : JSValue -> Outcome string)
  (suggestion : string) :
  suggest (JStr (if String.eqb m "" then "Unknown error occurred" else m))
  = Returned suggestion ->
  report label (JsError m) suggest
  = Returned
      {| text_of := StringifiedReport
           {| error := label;
              message := JStr (if String.eqb m "" then "Unknown error occurred" else m);
              details := JUndefined;
              suggestion := suggestion |};
         isError := true |}.
Proof.
  intros Hs. unfold report. simpl.
  assert (Hm : js_or (JStr m) (JStr "Unknown error occurred")
               = JStr (if String.eqb m "" then "Unknown error occurred" else m)).
  { unfold js_or. simpl. destruct (String.eqb m ""); reflexivity. }
  rewrite Hm, Hs. reflexivity.
Qed.

Lemma handle_after (call : Eff JSValue)
  (render : JSValue -> Outcome ToolText) (tag : string)
  (recover : Thrown -> Outcome ToolResult) (w : World) :
  after (handle call render tag recover w) = snd (call w).
Proof.
  unfold handle. destruct (call w) as [[v|e] w']; [|reflexivity].
  destruct (render v); reflexivity.
Qed.

Lemma suggest_on_strings (s : string) :
  (exists a, suggest_evaluate_diet (JStr s) = Returned a)
  /\ (exists a, suggest_get_diet_recommendation (JStr s) = Returned a)
  /\ (exists a, suggest_get_feed_info (JStr s) = Returned a)
  /\ (exists a, suggest_search_feeds (JStr s) = Returned a).
Proof.
  unfold suggest_evaluate_diet, suggest_get_diet_recommendation,
    suggest_get_feed_info, suggest_search_feeds. simpl.
  repeat split.
  - destruct (includes s "country_id"); [eauto|].
    destruct (includes s "user_id"); eauto.
  - destruct (includes s "country_id"); [eauto|].
    destruct (includes s "6-10 feeds"); eauto.
  - destruct (includes s "404"); [eauto|].
    destruct (includes s "not found"); eauto.
  - eauto.
Qed.

(** X18. The four tools of the per-request server never reject when the
    client call returns or throws an [Error]: a returned value is shown as
    it is (for a search, with its length as count) and nothing is printed;
    an [Error] is printed once and turned into an error result whose message
    is the error's message, or "Unknown error occurred" when that is empty,
    with no details.  The tool leaves the client in the state the call left
    it in. *)
Theorem tools_report_errors (E : Env) (w : World)
  (dietParams : EvaluateDietParams.t) (recParams : RecommendationParams.t)
  (feed_id : string) (searchParams : SearchParams.t) :
  (forall m w',
     (evaluateDiet E (cattleInfo_of_evaluation dietParams)
        (feedEvaluation_of dietParams) None None None w = (Threw (JsError m), w') ->
      exists s, tool_evaluate_diet E dietParams w
                = reported "Diet evaluation failed"
                    "[MCP Tool] Error in evaluate_diet:" m s w')
     /\ (getDietRecommendation E (cattleInfo_of_recommendation recParams)
           (feedSelection_of recParams) None None w = (Threw (JsError m), w') ->
         exists s, tool_get_diet_recommendation E recParams w
                   = reported "Diet recommendation failed"
                       "[MCP Tool] Error in get_diet_recommendation:" m s w')
     /\ (getFeedById E feed_id w = (Threw (JsError m), w') ->
         exists s, tool_get_feed_info E feed_id w
                   = reported "Failed to get feed information"
                       "[MCP Tool] Error in get_feed_info:" m s w')
     /\ (searchFeeds E searchParams w = (Threw (JsError m), w') ->
         exists s, tool_search_feeds E searchParams w
                   = reported "Feed search failed"
                       "[MCP Tool] Error in search_feeds:" m s w'))
  /\ (forall v w',
        (evaluateDiet E (cattleInfo_of_evaluation dietParams)
           (feedEvaluation_of dietParams) None None None w = (Returned v, w') ->
         tool_evaluate_diet E dietParams w = answered (Stringified v) w')
        /\ (getDietRecommendation E (cattleInfo_of_recommendation recParams)
              (feedSelection_of recParams) None None w = (Returned v, w') ->
            tool_get_diet_recommendation E recParams w = answered (Stringified v) w')
        /\ (getFeedById E feed_id w = (Returned v, w') ->
            tool_get_feed_info E feed_id w = answered (Stringified v) w')
        /\ (forall items,
              searchFeeds E searchParams w = (Returned (JArr items), w') ->
              tool_search_feeds E searchParams w
              = answered (StringifiedFeeds
                            (JNum (inject_Z (Z.of_nat (length items))))
                            (JArr items)) w'))
  /\ after (tool_evaluate_diet E dietParams w)
     = snd (evaluateDiet E (cattleInfo_of_evaluation dietParams)
              (feedEvaluation_of dietParams) None None None w)
  /\ after (tool_get_feed_info E feed_id w) = snd (getFeedById E feed_id w).
Proof.
  assert (Hsearch : forall p : SearchParams.t,
            {| SearchParams.country_id := SearchParams.country_id p;
               SearchParams.feed_type := SearchParams.feed_type p;
               SearchParams.feed_category := SearchParams.feed_category p;
               SearchParams.limit := SearchParams.limit p;
               SearchParams.offset := SearchParams.offset p |} = p)
    by (intros []; reflexivity).
  split; [|split; [|split]].
  - intros m w'.
    destruct (suggest_on_strings
                (if String.eqb m "" then "Unknown error occurred" else m))
      as ((s1 & H1) & (s2 & H2) & (s3 & H3) & (s4 & H4)).
    split; [|split; [|split]]; intros Hcall.
    + exists s1. unfold tool_evaluate_diet, handle, reported. rewrite Hcall.
      now rewrite (report_of_Error _ _ _ _ H1).
    + exists s2. unfold tool_get_diet_recommendation, handle, reported.
      rewrite Hcall. now rewrite (report_of_Error _ _ _ _ H2).
    + exists s3. unfold tool_get_feed_info, handle, reported. rewrite Hcall.
      now rewrite (report_of_Error _ _ _ _ H3).
    + exists s4. unfold tool_search_feeds, handle, reported.
      rewrite Hsearch, Hcall. now rewrite (report_of_Error _ _ _ _ H4).
  - intros v w'. split; [|split; [|split]].
    + intros Hcall. unfold tool_evaluate_diet, handle. now rewrite Hcall.
    + intros Hcall. unfold tool_get_diet_recommendation, handle. now rewrite Hcall.
    + intros Hcall. unfold tool_get_feed_info, handle. now rewrite Hcall.
    + intros items Hcall. unfold tool_search_feeds, handle.
      rewrite Hsearch, Hcall. reflexivity.
  - apply handle_after.
  - apply handle_after.
Qed.

Lemma tools_report_errors_witness :
  (exists s,
     tool_get_feed_info notFoundServer "nope" (start keyClient)
     = reported "Failed to get feed information"
         "[MCP Tool] Error in get_feed_info:" "Failed to get feed: 404" s
         (logged (feedRequest keyClient "nope") (start keyClient)))
  /\ tool_get_feed_info dietServer "f1" (start keyClient)
     = answered (Stringified feedF1)
         (logged (feedRequest keyClient "f1") (start keyClient)).
Proof.
  destruct (tools_report_errors notFoundServer (start keyClient)
              sampleDietParams sampleRecParams "nope" noFilter) as (Herr & _).
  destruct (Herr "Failed to get feed: 404"
              (logged (feedRequest keyClient "nope") (start keyClient)))
    as (_ & _ & Hfeed & _).
  split; [exact (Hfeed eq_refl)|].
  destruct (tools_report_errors dietServer (start keyClient)
              sampleDietParams sampleRecParams "f1" noFilter) as (_ & Hok & _).
  destruct (Hok feedF1 (logged (feedRequest keyClient "f1") (start keyClient)))
    as (_ & _ & Hfeed' & _).
  exact (Hfeed' eq_refl).
Defined.

Lemma prefix_head_differs (c a : ascii) (r s : string) :
  Ascii.eqb a c = false -> String.prefix (String c r) (String a s) = false.
Proof.
  intros H. simpl. destruct (ascii_dec c a) as [Heq|]; [|reflexivity].
  subst. now rewrite Ascii.eqb_refl in H.
Qed.

Lemma includes_skip (pre s r : string) (c : ascii) :
  only (fun a => negb (Ascii.eqb a c)) pre = true ->
  includes (pre ++ s) (String c r) = includes s (String c r).
Proof.
  induction pre as [|a pre IH]; [reflexivity|]. simpl only.
  intros H. apply andb_prop in H. destruct H as [Ha Hp].
  apply negb_true_iff in Ha.
  change (includes (String a (pre ++ s)) (String c r)
          = includes s (String c r)).
  unfold includes at 1; fold includes.
  rewrite (prefix_head_differs c a r (pre ++ s) Ha). now apply IH.
Qed.

Lemma includes_absent (s r : string) (c : ascii) :
  only (fun a => negb (Ascii.eqb a c)) s = true ->
  includes s (String c r) = false.
Proof.
  induction s as [|a s IH]; [reflexivity|]. simpl only.
  intros H. apply andb_prop in H. destruct H as [Ha Hs].
  apply negb_true_iff in Ha.
  unfold includes; fold includes.
  rewrite (prefix_head_differs c a r s Ha). now apply IH.
Qed.

Lemma only_weaken (p q : ascii -> bool) (s : string) :
  (forall a, p a = true -> q a = true) -> only p s = true -> only q s = true.
Proof.
  intros Hpq. induction s as [|a s IH]; [reflexivity|]. simpl.
  intros H. apply andb_prop in H. destruct H as [Ha Hs].
  now rewrite (Hpq a Ha), (IH Hs).
Qed.

Lemma only_app (p : ascii -> bool) (s t : string) :
  only p s = true -> only p t = true -> only p (s ++ t) = true.
Proof.
  intros Hs Ht. induction s as [|a s IH]; [exact Ht|]. simpl in *.
  apply andb_prop in Hs. destruct Hs as [Ha Hs]. now rewrite Ha, IH.
Qed.

(** The decimal form of an integer is made of digits and a sign. *)
Lemma string_of_Z_digits (n : Z) : only is_digit_or_minus (string_of_Z n) = true.
Proof.
  unfold string_of_Z.
  assert (Hu : forall d, only is_digit_or_minus (NilEmpty.string_of_uint d) = true).
  { induction d; simpl; try reflexivity; exact IHd. }
  assert (Hz : forall d, only is_digit_or_minus (NilZero.string_of_uint d) = true).
  { intros d. destruct d; try reflexivity; apply (Hu _). }
  destruct (Z.to_int n) as [d|d]; simpl; [apply Hz|]. apply Hz.
Qed.

Lemma status_includes_no_word (n : Z) :
  includes ("Failed to get feed: " ++ string_of_Z n) "not found" = false.
Proof.
  apply includes_absent, only_app; [reflexivity|].
  apply (only_weaken is_digit_or_minus); [|apply string_of_Z_digits].
  intros a Ha. unfold is_digit_or_minus in Ha. simpl in Ha.
  repeat (apply orb_prop in Ha; destruct Ha as [Ha | Ha];
          [apply Ascii.eqb_eq in Ha; subst; reflexivity|]).
  discriminate.
Qed.

(** X19. How the per-request server explains two failures.  On an
    ApiKey-mode client, when no country can be detected from the feeds, the
    [evaluate_diet] and [get_diet_recommendation] tools answer with an error
    result that carries the client's missing-country message and the hint
    to set [country_id].  When the backend answers a feed lookup with a
    non-success status, [get_feed_info] reports "Failed to get feed:
    <status>" and hints at a wrong feed id exactly when the status code
    contains 404, and at credentials or connectivity otherwise. *)
Theorem tool_suggestions (E : Env) (w : World)
  (dietParams : EvaluateDietParams.t) (recParams : RecommendationParams.t)
  (feed_id : string) :
  (mode (this w) = Some ApiKey ->
   (forall detected w',
      detectCountryFromFeeds E
        (map FeedEvaluationItem.feed_id (feedEvaluation_of dietParams)) w
      = (Returned detected, w') ->
      truthy detected = false ->
      tool_evaluate_diet E dietParams w
      = reported "Diet evaluation failed" "[MCP Tool] Error in evaluate_diet:"
          "country_id is required. Either provide it explicitly or ensure feeds have country_id set."
          "Ensure feeds have country_id set or provide country_id explicitly" w')
   /\ (forall detected w',
         detectCountryFromFeeds E
           (map FeedWithPrice.feed_id (feedSelection_of recParams)) w
         = (Returned detected, w') ->
         truthy detected = false ->
         tool_get_diet_recommendation E recParams w
         = reported "Diet recommendation failed"
             "[MCP Tool] Error in get_diet_recommendation:"
             "country_id is required. Either provide it explicitly or ensure feeds have country_id set."
             "Ensure feeds have country_id set or provide country_id explicitly" w'))
  /\ (forall resp,
        backend E (calls w) (feedRequest (this w) feed_id) = Resolved resp ->
        ok resp = false ->
        tool_get_feed_info E feed_id w
        = reported "Failed to get feed information"
            "[MCP Tool] Error in get_feed_info:"
            ("Failed to get feed: " ++ string_of_Z (status resp))
            (if includes (string_of_Z (status resp)) "404"
             then "Verify the feed_id is correct and the feed exists in the database"
             else "Check API credentials and network connectivity")
            (logged (feedRequest (this w) feed_id) w)).
Proof.
  split.
  - intros Hm. apply mode_ApiKey in Hm. split.
    + intros detected w' Hd Ht.
      unfold tool_evaluate_diet, handle.
      rewrite (evaluateDiet_apiKey_cases E w _ _ _ _ _ Hm).
      unfold resolvedCountry. change (given None) with false. cbv iota.
      rewrite Hd, Ht. reflexivity.
    + intros detected w' Hd Ht.
      unfold tool_get_diet_recommendation, handle.
      rewrite (getDietRecommendation_apiKey_cases E w _ _ _ _ Hm).
      unfold resolvedCountry. change (given None) with false. cbv iota.
      rewrite Hd, Ht. reflexivity.
  - intros resp Hb Hok.
    assert (Hrun : getFeedById E feed_id w
                   = (Threw (JsError ("Failed to get feed: "
                                      ++ string_of_Z (status resp))),
                      logged (feedRequest (this w) feed_id) w)).
    { unfold getFeedById. run. now rewrite Hb, Hok. }
    unfold tool_get_feed_info, handle. rewrite Hrun.
    unfold reported. f_equal.
    apply report_of_Error.
    change (String.eqb ("Failed to get feed: " ++ string_of_Z (status resp)) "")
      with false. cbv iota.
    unfold suggest_get_feed_info, includes_of.
    rewrite (includes_skip "Failed to get feed: " (string_of_Z (status resp)) "04" "4")
      by reflexivity.
    rewrite status_includes_no_word.
    destruct (includes (string_of_Z (status resp)) "404"); reflexivity.
Qed.

Lemma tool_suggestions_witness :
  tool_get_feed_info notFoundServer "nope" (start keyClient)
  = reported "Failed to get feed information" "[MCP Tool] Error in get_feed_info:"
      "Failed to get feed: 404"
      "Verify the feed_id is correct and the feed exists in the database"
      (logged (feedRequest keyClient "nope") (start keyClient))
  /\ text_of_run (tool_evaluate_diet notFoundServer sampleDietParams (start keyClient))
     = Some (StringifiedReport
               {| error := "Diet evaluation failed";
                  message := JStr "country_id is required. Either provide it explicitly or ensure feeds have country_id set.";
                  details := JUndefined;
                  suggestion := "Ensure feeds have country_id set or provide country_id explicitly" |}).
Proof.
  destruct (tool_suggestions notFoundServer (start keyClient) sampleDietParams
              sampleRecParams "nope") as (Hdiet & Hfeed).
  split.
  - apply (Hfeed (refuse 404 "Not Found")); reflexivity.
  - destruct (Hdiet eq_refl) as (Hev & _).
    rewrite (Hev JNull
               (warned (JsError "request to http://api/feeds/f1 failed")
                  (logged (feedRequest keyClient "f1") (start keyClient))));
      reflexivity.
Defined.

(** X20. The server that keeps one client for the process hands its two
    configured ids to the client by position.  On an ApiKey-mode client its
    [get_diet_recommendation] tool passes FEED_API_USER_ID as third
    argument, which the client takes as the country: when that variable is
    set the single request carries it as [country_id], with the
    service-account id as [user_id] and no feed lookup, whatever
    FEED_API_COUNTRY_ID holds; when it is not set the tool is the plain
    call without country.  Its [evaluate_diet] tool sends
    FEED_API_COUNTRY_ID as country and FEED_API_USER_ID, when set, as
    user. *)
Theorem process_tools_pass_ids_by_position (E : Env) (process_env : ProcessEnv)
  (w : World) (dietParams : EvaluateDietParams.t)
  (recParams : RecommendationParams.t) :
  mode (this w) = Some ApiKey ->
  (FEED_API_USER_ID process_env <> "" ->
   after (process_tool_get_diet_recommendation E process_env recParams w)
   = logged (recommendationRequest (this w) (clock E (calls w))
               (JStr "00000000-0000-0000-0000-000000000000")
               (JStr (FEED_API_USER_ID process_env))
               (cattleInfo_of_recommendation recParams)
               (feedSelection_of recParams)) w)
  /\ (FEED_API_USER_ID process_env = "" ->
      process_tool_get_diet_recommendation E process_env recParams w
      = handle (getDietRecommendation E (cattleInfo_of_recommendation recParams)
                  (feedSelection_of recParams) None None)
          (fun result => Returned (Stringified result))
          "[MCP Tool] Error in get_diet_recommendation:"
          (failed "Failed to get diet recommendation: ") w)
  /\ (FEED_API_COUNTRY_ID process_env <> "" ->
      after (process_tool_evaluate_diet E process_env dietParams w)
      = logged (evaluationRequest (this w) (clock E (calls w))
                  (if String.eqb (FEED_API_USER_ID process_env) ""
                   then JStr "00000000-0000-0000-0000-000000000000"
                   else JStr (FEED_API_USER_ID process_env))
                  (JStr (FEED_API_COUNTRY_ID process_env)) (JStr "USD")
                  (cattleInfo_of_evaluation dietParams)
                  (feedEvaluation_of dietParams)) w).
Proof.
  intros Hm. apply mode_ApiKey in Hm. split; [|split].
  - intros Hu. unfold process_tool_get_diet_recommendation.
    rewrite handle_after.
    rewrite getDietRecommendation_apiKey_cases by exact Hm.
    unfold resolvedCountry, or_undefined.
    rewrite (given_nonempty _ Hu). cbv iota. rewrite (given_nonempty _ Hu).
    rewrite exchange_snd. reflexivity.
  - intros Hu. unfold process_tool_get_diet_recommendation, or_undefined.
    rewrite Hu. reflexivity.
  - intros Hc. unfold process_tool_evaluate_diet.
    rewrite handle_after.
    rewrite evaluateDiet_apiKey_cases by exact Hm.
    unfold resolvedCountry, or_undefined.
    rewrite (given_nonempty _ Hc). cbv iota. rewrite (given_nonempty _ Hc).
    rewrite exchange_snd. f_equal. f_equal.
    destruct (FEED_API_USER_ID process_env) as [|a u]; reflexivity.
Qed.

Lemma process_tools_pass_ids_by_position_witness :
  calls (after (process_tool_get_diet_recommendation dietServer fullEnv
                  sampleRecParams (start keyClient)))
  = [recommendationRequest keyClient 1700000000000
       (JStr "00000000-0000-0000-0000-000000000000") (JStr "u-7")
       sampleCattle sampleSelection]
  /\ calls (after (process_tool_evaluate_diet dietServer fullEnv sampleDietParams
                     (start keyClient)))
     = [evaluationRequest keyClient 1700000000000 (JStr "u-7") (JStr "c-ke")
          (JStr "USD") sampleCattle sampleRation].
Proof.
  destruct (process_tools_pass_ids_by_position dietServer fullEnv (start keyClient)
              sampleDietParams sampleRecParams eq_refl) as (Hrec & _ & Hev).
  split.
  - rewrite Hrec; [reflexivity | discriminate].
  - rewrite Hev; [reflexivity | discriminate].
Defined.

(** ** Simulation ids *)



(** ** What the identity accessors hand back *)

(** X22. [getCountryId] and [getCurrency] never hand back an empty value:
    a country id that [getCountryId] returns is truthy and is the cached
    one, an empty cached country makes it throw "Country ID not available"
    instead, and [getCurrency] returns a truthy currency, ["USD"] when none
    is cached, and throws only when [authenticate] does. *)
Theorem accessors_return_non_empty (E : Env) (w : World) :
  (forall v w',
     getCountryId E w = (Returned v, w') ->
     truthy v = true /\ cachedCountryId (this w') = v)
  /\ (forall v w', getCurrency E w = (Returned v, w') -> truthy v = true)
  /\ (given (apiKey (this w)) = false ->
      forall u w1,
        authenticate E w = (Returned u, w1) ->
        getCountryId E w
        = ((if truthy (cachedCountryId (this w1))
            then Returned (cachedCountryId (this w1))
            else Threw (JsError "Country ID not available")), w1)
        /\ getCurrency E w
           = (Returned (js_or (cachedCurrency (this w1)) (JStr "USD")), w1))
  /\ (given (apiKey (this w)) = false ->
      forall e w1,
        authenticate E w = (Threw e, w1) ->
        getCountryId E w = (Threw e, w1) /\ getCurrency E w = (Threw e, w1)).
Proof.
  split; [|split; [|split]].
  - intros v w'. apply getCountryId_returns_truthy.
  - intros v w'. apply getCurrency_returns_truthy.
  - intros Hk u w1 Ha. unfold getCountryId, getCurrency. run.
    rewrite Hk. run. rewrite Ha. simpl.
    destruct (truthy (cachedCountryId (this w1))); split; reflexivity.
  - intros Hk e w1 Ha. unfold getCountryId, getCurrency. run.
    rewrite Hk. run. rewrite Ha. split; reflexivity.
Qed.

Lemma accessors_return_non_empty_witness :
  fst (getCountryId dietServer (start pinClient)) = Returned (JStr "c-et")
  /\ fst (getCurrency dietServer (start pinClient)) = Returned (JStr "USD")
  /\ fst (getCurrency refusingServer (start pinClient))
     = Threw (JsError "Failed to authenticate: Authentication failed: 401 Unauthorized").
Proof.
  destruct (accessors_return_non_empty dietServer (start pinClient))
    as (_ & _ & Hok & _).
  destruct (Hok eq_refl (JStr "u-1") (snd (authenticate dietServer (start pinClient)))
              eq_refl) as [Hc Hm].
  destruct (accessors_return_non_empty refusingServer (start pinClient))
    as (_ & _ & _ & Hbad).
  destruct (Hbad eq_refl
              (JsError "Failed to authenticate: Authentication failed: 401 Unauthorized")
              (snd (authenticate refusingServer (start pinClient))) eq_refl)
    as [_ Hm'].
  rewrite Hc, Hm, Hm'. repeat split.
Defined.
